(** * Split_bins2fasta: per-bin FASTA splitting

    A shallow embedding of [scripts/Split_bins2fasta.py] and the proofs of
    its specification.

    Modelling conventions.
    - A Python [str] is a [string]; a character is a code point below 256.
    - A text file is the text the text layer hands to the program; iterating
      over an open file yields its lines, each one keeping its terminating
      newline ([file_lines]).
    - [defaultdict(set)] keeps its keys in insertion order, which the source
      observes through [.items()]: it is an association list whose values are
      [gset string].  The iteration order of a Python set is unspecified: the
      model iterates with [elements], no proof looks at that order, and
      [invert_any_order] shows that any other order gives the same index.
    - [contig_to_bins] and [writers] are only looked up by key: [gmap].
    - The output directory is a finite map from file names to file texts,
      or [None] while the directory does not exist.  A handle opened with
      mode "w" truncates; a write appends.  The file of a bin is the entry
      [bin ++ ".fasta"] of this map and opening it succeeds: this is what
      [open(outdir / f"{bin_name}.fasta", "w")] does for an identifier that
      names a plain file ([plain_name]: no path separator, no NUL, short
      enough).  For other identifiers the path is resolved elsewhere or
      [open] raises, which the map does not show: every statement on the
      files written, the registry or the end of a run that writes carries
      the hypothesis [plain_bins] or [plain_rows].  The input files are not
      among the files of the output directory.
    - [IndexError] is the exception of the line loop; the errors of [open]
      are excluded by the hypothesis above.  A run that raises leaves the
      text written so far in the files.
    - [main] starts from the parsed arguments: [argparse] is not modelled. *)

From Stdlib Require Import Ascii String.
From stdpp Require Import gmap strings list fin_maps.

Open Scope string_scope.
Open Scope list_scope.

(** ** Python string primitives *)

Module PyStr.

(** [str.isspace] on the code points below 256: TAB, LF, VT, FF, CR,
    FS, GS, RS, US, SPACE, NEL and NBSP. *)
Definition is_space (a : ascii) : bool :=
  let n := nat_of_ascii a in
  (((9 <=? n) && (n <=? 13)) || ((28 <=? n) && (n <=? 32))
   || (n =? 133) || (n =? 160))%nat.

(** [s.lstrip()] *)
Fixpoint lstrip (s : string) : string :=
  match s with
  | EmptyString => EmptyString
  | String a s' => if is_space a then lstrip s' else s
  end.

(** [s.rstrip()] *)
Fixpoint rstrip (s : string) : string :=
  match s with
  | EmptyString => EmptyString
  | String a s' =>
      match rstrip s' with
      | EmptyString => if is_space a then EmptyString else String a EmptyString
      | r => String a r
      end
  end.

(** [s.strip()] *)
Definition strip (s : string) : string := rstrip (lstrip s).

(** [s.split()] with no separator: the maximal runs of non-space
    characters.  [tok] is the run being scanned. *)
Fixpoint split_from (tok : string) (s : string) : list string :=
  match s with
  | EmptyString => if decide (tok = "") then [] else [tok]
  | String a s' =>
      if is_space a
      then (if decide (tok = "") then split_from "" s'
            else tok :: split_from "" s')
      else split_from (tok +:+ String a "") s'
  end.

Definition split (s : string) : list string := split_from "" s.

(** [s.startswith(">")] *)
Definition startswith_gt (s : string) : bool :=
  match s with
  | String a _ => bool_decide (a = ">"%char)
  | EmptyString => false
  end.

(** [s[1:]] *)
Definition drop1 (s : string) : string :=
  match s with
  | String _ s' => s'
  | EmptyString => EmptyString
  end.

(** ["".join(l)] *)
Definition join (l : list string) : string := foldr String.append "" l.

Definition newline : ascii := "010"%char.
Definition nl : string := String newline "".

(** The lines a text file yields when iterated: every line keeps its
    newline; the last line has none when the text does not end in one. *)
Fixpoint file_lines (s : string) : list string :=
  match s with
  | EmptyString => []
  | String a s' =>
      if bool_decide (a = newline) then nl :: file_lines s'
      else match file_lines s' with
           | [] => [String a ""]
           | l :: ls => String a l :: ls
           end
  end.

End PyStr.

Import PyStr.

Definition tab : string := String "009"%char "".

(** ** The mapping loader: [load_bin_contig_map] *)

(** [bin2contigs[bin_name].add(contig)] on a [defaultdict(set)]: a missing
    key is created at the end of the dictionary. *)
Fixpoint add_contig (bin_name contig : string) (d : list (string * gset string))
  : list (string * gset string) :=
  match d with
  | [] => [(bin_name, {[contig]})]
  | (k, s) :: d' =>
      if decide (k = bin_name) then (k, {[contig]} ∪ s) :: d'
      else (k, s) :: add_contig bin_name contig d'
  end.

(** The body of the loop over the data lines. *)
Definition load_row (d : list (string * gset string)) (line : string)
  : list (string * gset string) :=
  if decide (strip line = "") then d
  else
    let parts := split (strip line) in
    if bool_decide (length parts < 2) then d
    else match parts with
         | bin_name :: contig :: _ => add_contig bin_name contig d
         | _ => d
         end.

(** [next(f, None)] consumes the first line, the loop reads the others. *)
Definition load_bin_contig_map (tsv_text : string) : list (string * gset string) :=
  foldl load_row [] (tail (file_lines tsv_text)).

(** ** The splitter: [split_fasta_by_bin] *)

(** The inverted index: for each bin in dictionary order and each contig of
    its set, [contig_to_bins[c].append(bin_name)]. *)
Definition index_contig (bin_name : string) (idx : gmap string (list string))
    (c : string) : gmap string (list string) :=
  <[c := default [] (idx !! c) ++ [bin_name]]> idx.

Definition index_bin (idx : gmap string (list string)) (item : string * gset string)
  : gmap string (list string) :=
  foldl (index_contig item.1) idx (elements item.2).

Definition invert (bin2contigs : list (string * gset string))
  : gmap string (list string) :=
  foldl index_bin ∅ bin2contigs.

(** The registry of open handles (bin name to the file its handle writes)
    and the files of the output directory. *)
Record io := { writers : gmap string string; files : gmap string string }.

Definition fasta_name (bin_name : string) : string := bin_name +:+ ".fasta".

(** [open(name, "w")] creates or truncates; [fh.write(data)] appends.
    Opening is taken to succeed, as it does for a plain file name in an
    existing directory (see [plain_name]). *)
Definition fopen_w (name : string) (fs : gmap string string) : gmap string string :=
  <[name := ""]> fs.

Definition fwrite (name data : string) (fs : gmap string string)
  : gmap string string :=
  alter (λ text, text +:+ data) name fs.

(** The marker line written for a record. *)
Definition marker_line (contig : string) : string := ">" +:+ contig +:+ nl.

(** The body of the loop of [flush] for one owning bin.  The handle is
    named by the file name [fasta_name bin_name] in the directory, which is
    the path the source opens when the identifier is a plain file name. *)
Definition write_record (contig : string) (seq_buffer : list string)
    (st : io) (bin_name : string) : io :=
  let st1 :=
    match writers st !! bin_name with
    | Some _ => st
    | None => {| writers := <[bin_name := fasta_name bin_name]> (writers st);
                 files := fopen_w (fasta_name bin_name) (files st) |}
    end in
  match writers st1 !! bin_name with
  | Some fh =>
      {| writers := writers st1;
         files := fwrite fh (join seq_buffer)
                    (fwrite fh (marker_line contig) (files st1)) |}
  | None => st1
  end.

Definition flush (contig_to_bins : gmap string (list string))
    (current_contig : option string) (seq_buffer : list string) (st : io) : io :=
  match current_contig with
  | None => st
  | Some c =>
      match contig_to_bins !! c with
      | Some bins => foldl (write_record c seq_buffer) st bins
      | None => st
      end
  end.

(** The local variables of the streaming loop. *)
Record reader := {
  current_contig : option string;
  seq_buffer : list string;
  out : io
}.

(** The exception of [split()[0]] on a marker line without a token. *)
Inductive exn := IndexError.

(** A computation either returns or raises, leaving the files written so
    far behind. *)
Inductive outcome (A : Type) :=
| Returned (a : A)
| Raised (e : exn) (st : io).
Arguments Returned {A} a.
Arguments Raised {A} e st.

(** One iteration of [for line in f]. *)
Definition read_line (contig_to_bins : gmap string (list string))
    (r : reader) (line : string) : outcome reader :=
  if startswith_gt line then
    let st := flush contig_to_bins (current_contig r) (seq_buffer r) (out r) in
    match split (strip (drop1 line)) with
    | [] => Raised IndexError st
    | tok :: _ => Returned {| current_contig := Some tok; seq_buffer := []; out := st |}
    end
  else
    Returned {| current_contig := current_contig r;
                seq_buffer := seq_buffer r ++ [line];
                out := out r |}.

Fixpoint read_lines (contig_to_bins : gmap string (list string))
    (r : reader) (lines : list string) : outcome reader :=
  match lines with
  | [] => Returned r
  | line :: rest =>
      match read_line contig_to_bins r line with
      | Returned r' => read_lines contig_to_bins r' rest
      | Raised e st => Raised e st
      end
  end.

(** [Path.mkdir(parents=True, exist_ok=True)]: a directory that does not
    exist is created empty, one that exists is kept. *)
Definition mkdir (outdir : option (gmap string string)) : gmap string string :=
  default ∅ outdir.

(** The empty registry [writers = {}] over the files of the directory. *)
Definition init_io (fs : gmap string string) : io :=
  {| writers := ∅; files := fs |}.

(** The local variables before the first line: [current_contig = None],
    [seq_buffer = []]. *)
Definition reader0 (fs : gmap string string) : reader :=
  {| current_contig := None; seq_buffer := []; out := init_io fs |}.

(** The stream over the lines of the assembly, the last [flush], and the
    closing of the handles, which changes no file text. *)
Definition split_lines (lines : list string)
    (bin2contigs : list (string * gset string))
    (outdir : option (gmap string string)) : outcome io :=
  let contig_to_bins := invert bin2contigs in
  match read_lines contig_to_bins (reader0 (mkdir outdir)) lines with
  | Returned r =>
      Returned (flush contig_to_bins (current_contig r) (seq_buffer r) (out r))
  | Raised e st => Raised e st
  end.

Definition split_fasta_by_bin (assembly_text : string)
    (bin2contigs : list (string * gset string))
    (outdir : option (gmap string string)) : outcome io :=
  split_lines (file_lines assembly_text) bin2contigs outdir.

(** ** The entry point: [main], after the command line is parsed *)

Record args := { assembly : string; map : string }.

(** The text files by path, and the directory named by [--outdir] when it
    exists. *)
Record world := {
  paths : gmap string string;
  outdir : option (gmap string string)
}.

(** The three [sys.exit] messages. *)
Inductive fatal :=
| AssemblyNotFound (path : string)
| MappingNotFound (path : string)
| NoMappings.

Inductive status :=
| Exit0
| SysExit (m : fatal)
| Uncaught (e : exn).

(** [sys.exit] with a string and an uncaught exception both end the process
    with status 1. *)
Definition exit_code (s : status) : Z :=
  match s with
  | Exit0 => 0
  | SysExit _ => 1
  | Uncaught _ => 1
  end.

Definition main (a : args) (w : world) : status * world :=
  match paths w !! assembly a with
  | None => (SysExit (AssemblyNotFound (assembly a)), w)
  | Some assembly_text =>
      match paths w !! map a with
      | None => (SysExit (MappingNotFound (map a)), w)
      | Some tsv_text =>
          let bin2contigs := load_bin_contig_map tsv_text in
          match bin2contigs with
          | [] => (SysExit NoMappings, w)
          | _ =>
              match split_fasta_by_bin assembly_text bin2contigs (outdir w) with
              | Returned st =>
                  (Exit0, {| paths := paths w; outdir := Some (files st) |})
              | Raised e st =>
                  (Uncaught e, {| paths := paths w; outdir := Some (files st) |})
              end
          end
      end
  end.

(** ** The example of the specification *)

Definition ex_map : string :=
  "bin" +:+ tab +:+ "contig" +:+ nl +:+ "A" +:+ tab +:+ "c1" +:+ nl
  +:+ "A" +:+ tab +:+ "c2" +:+ nl +:+ "B" +:+ tab +:+ "c2".

Definition ex_fasta : string :=
  ">c1 len=4" +:+ nl +:+ "ACGT" +:+ nl +:+ ">c2" +:+ nl +:+ "GG" +:+ nl +:+ "TT" +:+ nl
  +:+ ">c3" +:+ nl +:+ "CCC" +:+ nl.

Definition ex_world : world :=
  {| paths := {[ "asm.fa" := ex_fasta; "map.tsv" := ex_map ]}; outdir := None |}.

(** ** Specification-level notions *)

(** The bins that own contig [c], in dictionary order. *)
Definition owners (c : string) (bin2contigs : list (string * gset string))
  : list string :=
  (filter (λ item, c ∈ item.2) bin2contigs).*1.

(** Every registered handle of bin [b] is open on the file of [b]. *)
Definition handles_ok (st : io) : Prop :=
  ∀ b fh, writers st !! b = Some fh →
    fh = fasta_name b ∧ is_Some (files st !! fh).

(** The text of a record in a bin file, spelled out: the marker character,
    the identifier, a newline, then the body lines one after the other. *)
Definition render (rec : string * list string) : string :=
  ">" +:+ rec.1 +:+ nl +:+ join rec.2.

(** The text a bin file starts from: what the handle has written so far, or
    nothing when the file is still to be opened (and truncated). *)
Definition base_text (st : io) (b : string) : string :=
  match writers st !! b with
  | Some _ => default "" (files st !! fasta_name b)
  | None => ""
  end.

(** A write event: the bin and the record written to it. *)
Definition write_event (st : io) (ev : string * (string * list string)) : io :=
  write_record ev.2.1 ev.2.2 st ev.1.

(** The texts written to bin [b] by a list of events, in order. *)
Definition texts_for (b : string) (evs : list (string * (string * list string)))
  : list string :=
  render <$> (filter (λ ev, ev.1 = b) evs).*2.

(** The records of a sequence file: the identifier of every marker line (the
    first token after the marker) with the lines that follow it up to the
    next marker line.  The flag is [false] when the reading stops at a marker
    line that has no token; the records are then the ones completed so far. *)
Definition close_record (cur : option string) (buf : list string)
  : list (string * list string) :=
  match cur with
  | None => []
  | Some c => [(c, buf)]
  end.

Fixpoint parse_from (cur : option string) (buf : list string)
    (lines : list string) : list (string * list string) * bool :=
  match lines with
  | [] => (close_record cur buf, true)
  | line :: rest =>
      if startswith_gt line then
        match split (strip (drop1 line)) with
        | [] => (close_record cur buf, false)
        | tok :: _ =>
            let p := parse_from (Some tok) [] rest in
            (close_record cur buf ++ p.1, p.2)
        end
      else parse_from cur (buf ++ [line]) rest
  end.

Definition records (lines : list string) : list (string * list string) :=
  (parse_from None [] lines).1.

Definition well_marked (lines : list string) : bool :=
  (parse_from None [] lines).2.

(** A marker line without a token after the marker. *)
Definition bare_marker (line : string) : Prop :=
  startswith_gt line = true ∧ split (strip (drop1 line)) = [].

(** [flush] for a completed record. *)
Definition flush_record (contig_to_bins : gmap string (list string))
    (st : io) (rec : string * list string) : io :=
  flush contig_to_bins (Some rec.1) rec.2 st.

(** The end of [split_fasta_by_bin] after the loop: the last [flush]. *)
Definition finish (contig_to_bins : gmap string (list string))
    (o : outcome reader) : outcome io :=
  match o with
  | Returned r =>
      Returned (flush contig_to_bins (current_contig r) (seq_buffer r) (out r))
  | Raised e st => Raised e st
  end.

(** The write events of a list of records: every record goes to each of its
    owning bins. *)
Definition events (m : list (string * gset string))
    (recs : list (string * list string))
  : list (string * (string * list string)) :=
  recs ≫= λ rec, (λ b, (b, rec)) <$> owners rec.1 m.

(** The records that bin [b] owns, in the order of the list. *)
Definition bin_records (m : list (string * gset string)) (b : string)
    (recs : list (string * list string)) : list (string * list string) :=
  filter (λ rec, b ∈ owners rec.1 m) recs.

(** The text of a list of records. *)
Definition render_all (recs : list (string * list string)) : string :=
  join (render <$> recs).

(** How a run of the splitter ends: it returns, or it stops at a marker line
    without a token. *)
Definition ended (ok : bool) (st : io) : outcome io :=
  if ok then Returned st else Raised IndexError st.

(** The registry and the files once the records of [lines] are flushed. *)
Definition final_io (lines : list string) (m : list (string * gset string))
    (outdir : option (gmap string string)) : io :=
  foldl write_event (init_io (mkdir outdir)) (events m (records lines)).

(** The association a data line of the mapping file stands for, in the words
    of the specification: the line is split on whitespace; with fewer than
    two fields it stands for nothing, otherwise for (first field, second
    field). *)
Definition row_pair (line : string) : option (string * string) :=
  match split line with
  | bin_name :: contig :: _ => Some (bin_name, contig)
  | _ => None
  end.

(** Bin [b] is associated with contig [c] in the dictionary. *)
Definition maps_to (m : list (string * gset string)) (b c : string) : Prop :=
  ∃ s, (b, s) ∈ m ∧ c ∈ s.

(** No character of the string is whitespace. *)
Fixpoint no_space (s : string) : bool :=
  match s with
  | EmptyString => true
  | String a s' => negb (is_space a) && no_space s'
  end.

(** No character of the string is a newline. *)
Fixpoint no_nl (s : string) : bool :=
  match s with
  | EmptyString => true
  | String a s' => negb (bool_decide (a = newline)) && no_nl s'
  end.

(** A field as [split] produces it: not empty, no whitespace. *)
Definition is_token (c : string) : Prop := c ≠ "" ∧ no_space c = true.

(** A line that ends in its only newline, and a last line without one. *)
Definition text_line (l : string) : Prop := ∃ t, l = t +:+ nl ∧ no_nl t = true.
Definition last_line (l : string) : Prop := l ≠ "" ∧ no_nl l = true.

(** The shape of the lines of a text file: only the last one may lack its
    newline. *)
Fixpoint lines_ok (ls : list string) : Prop :=
  match ls with
  | [] => True
  | l :: ls' =>
      match ls' with
      | [] => text_line l ∨ last_line l
      | _ => text_line l ∧ lines_ok ls'
      end
  end.

(** The lines of a list of records: the marker line, then the body. *)
Definition record_lines (rec : string * list string) : list string :=
  marker_line rec.1 :: rec.2.

(** The shape of the records of a text file. *)
Definition body_ok (body : list string) : Prop :=
  Forall (λ l, startswith_gt l = false) body.

Fixpoint recs_ok (recs : list (string * list string)) : Prop :=
  match recs with
  | [] => True
  | rec :: recs' =>
      is_token rec.1 ∧ body_ok rec.2 ∧
      match recs' with
      | [] => lines_ok rec.2
      | _ => Forall text_line rec.2 ∧ recs_ok recs'
      end
  end.

(** A sequence file seen as blocks: a marker line and the lines up to the
    next marker line. *)
Definition header_id (line : string) : option string :=
  head (split (strip (drop1 line))).

Definition block_ok (blk : string * list string) : Prop :=
  startswith_gt blk.1 = true ∧ is_Some (header_id blk.1) ∧ body_ok blk.2.

Definition block_lines (blk : string * list string) : list string :=
  blk.1 :: blk.2.

Definition block_record (blk : string * list string) : string * list string :=
  (default "" (header_id blk.1), blk.2).

(** The registry and the files a run of the splitter leaves. *)
Definition io_of (o : outcome io) : io :=
  match o with
  | Returned st => st
  | Raised _ st => st
  end.

(** What [main] does once both files are found and the dictionary is not
    empty. *)
Definition run_split (w : world) (o : outcome io) : status * world :=
  match o with
  | Returned st => (Exit0, {| paths := paths w; outdir := Some (files st) |})
  | Raised e st => (Uncaught e, {| paths := paths w; outdir := Some (files st) |})
  end.

(** The mapping file holds no valid row after its first line. *)
Definition no_rows (tsv_text : string) : Prop :=
  ∀ line, line ∈ tail (file_lines tsv_text) → row_pair line = None.

(** Inputs for the examples: a mapping file whose first line looks like a
    row, and sequence files with a marker without token, with no marker,
    with lines before the first marker, and with a repeated identifier. *)
Definition ex_map_rowlike : string :=
  "A" +:+ tab +:+ "c9" +:+ nl +:+ "A c1 extra" +:+ nl +:+ "lonely" +:+ nl
  +:+ nl +:+ "A" +:+ tab +:+ "c1" +:+ nl.

Definition ex_fasta_bare : string :=
  ">c1" +:+ nl +:+ "ACGT" +:+ nl +:+ "> " +:+ nl +:+ "GG" +:+ nl.

Definition ex_fasta_nomarker : string := "ACGT" +:+ nl +:+ "GG" +:+ nl.

Definition ex_fasta_preamble : string :=
  "# assembly" +:+ nl +:+ nl +:+ ">c2 x" +:+ nl +:+ "GG" +:+ nl.

Definition ex_fasta_dup : string :=
  ">c1" +:+ nl +:+ "AC" +:+ nl +:+ ">c1 again" +:+ nl +:+ "GG" +:+ nl.

Definition ex_args : args := {| assembly := "asm.fa"; map := "map.tsv" |}.

Definition world_of (asm tsv : string) (out : option (gmap string string)) : world :=
  {| paths := {[ "asm.fa" := asm; "map.tsv" := tsv ]}; outdir := out |}.

(** The same inputs with the output directory not yet there. *)
Definition fresh (w : world) : world := {| paths := paths w; outdir := None |}.

Definition ex_blocks_dup : list (string * list string) :=
  [(">c1" +:+ nl, ["AC" +:+ nl]); (">c1 again" +:+ nl, ["GG" +:+ nl])].

(** The dictionary of [ex_map]. *)
Definition ex_bin2contigs : list (string * gset string) :=
  [("A", {["c1"; "c2"]}); ("B", {["c2"]})].

(** The inversion with the sets iterated in any order [iter]: Python leaves
    the iteration order of a set unspecified. *)
Definition set_order (iter : gset string → list string) : Prop :=
  ∀ s, NoDup (iter s) ∧ ∀ x, x ∈ iter s ↔ x ∈ s.

Definition invert_in (iter : gset string → list string)
    (bin2contigs : list (string * gset string)) : gmap string (list string) :=
  foldl (λ idx item, foldl (index_contig item.1) idx (iter item.2)) ∅ bin2contigs.

(** ** Notions for the further properties *)

(** Two lines the splitter cannot tell apart: the same line, or two marker
    lines with the same first token (or both without one). *)
Definition line_equiv (l l' : string) : Prop :=
  l = l' ∨
  (startswith_gt l = true ∧ startswith_gt l' = true ∧ header_id l = header_id l').

(** Some bin owns the identifier of the record. *)
Definition mapped (m : list (string * gset string))
    (rec : string * list string) : Prop :=
  owners rec.1 m ≠ [].

(** The rows a mapping text stands for, after its first line. *)
Definition has_row (tsv_text : string) (b c : string) : Prop :=
  ∃ line, line ∈ tail (file_lines tsv_text) ∧ row_pair line = Some (b, c).

(** The text of two runs into fresh directories, one after the other: a
    file written by both holds the first text followed by the second. *)
Definition append_files (fs1 fs2 : gmap string string) : gmap string string :=
  union_with (λ t1 t2, Some (t1 +:+ t2)) fs1 fs2.

(** Further example inputs: the rows of [ex_map] in another order with a
    repeated row, and the two halves of [ex_fasta]. *)
Definition ex_map_shuffled : string :=
  "x y" +:+ nl +:+ "B c2" +:+ nl +:+ "A c2" +:+ nl +:+ "A c1" +:+ nl
  +:+ "B c2" +:+ nl.

Definition ex_fasta_head : string := ">c1 len=4" +:+ nl +:+ "ACGT" +:+ nl.

Definition ex_fasta_tail : string :=
  ">c2" +:+ nl +:+ "GG" +:+ nl +:+ "TT" +:+ nl +:+ ">c3" +:+ nl +:+ "CCC" +:+ nl.

Definition ex_fasta_plain : string :=
  ">c1" +:+ nl +:+ "ACGT" +:+ nl +:+ ">c2 other" +:+ nl +:+ "GG" +:+ nl
  +:+ "TT" +:+ nl +:+ ">c3 x y" +:+ nl +:+ "CCC" +:+ nl.

(** An entry of the dictionary as the loader makes it: the bin and its
    contigs are tokens and the set is not empty. *)
Definition entry_ok (item : string * gset string) : Prop :=
  is_token item.1 ∧ item.2 ≠ ∅ ∧ ∀ c, c ∈ item.2 → is_token c.

#[global] Instance mapped_dec m rec : Decision (mapped m rec).
Proof. unfold mapped. apply _. Defined.

(** ** Bin identifiers that name a file of the output directory

    [outdir / f"{bin_name}.fasta"] is the file [bin_name ++ ".fasta"]
    directly in the output directory, and [open] creates it, when the
    identifier holds no path separator and no NUL character and is short
    enough for a file name (255 bytes with the suffix, at most two bytes a
    character).  For other identifiers the path leaves the directory, names
    the file of another bin, or makes [open] raise; the statements on the
    written files are made for plain identifiers. *)
Definition path_char (a : ascii) : bool :=
  bool_decide (a = "/"%char) || bool_decide (a = "000"%char).

Fixpoint no_path_char (s : string) : bool :=
  match s with
  | EmptyString => true
  | String a s' => negb (path_char a) && no_path_char s'
  end.

Definition plain_name (b : string) : Prop :=
  no_path_char b && (String.length b <=? 120)%nat = true.

Definition plain_bins (m : list (string * gset string)) : Prop :=
  Forall plain_name m.*1.

(** Every bin of a row of the mapping text is plain. *)
Definition plain_rows (tsv_text : string) : Prop :=
  ∀ b c, has_row tsv_text b c → plain_name b.

(** Every character of the string is whitespace. *)
Fixpoint all_space (s : string) : bool :=
  match s with
  | EmptyString => true
  | String a s' => is_space a && all_space s'
  end.

(** What may follow a field on a line: nothing, or whitespace and anything. *)
Definition field_end (rest : string) : Prop :=
  rest = "" ∨ ∃ a rest', rest = String a rest' ∧ is_space a = true.

#[global] Instance plain_name_dec b : Decision (plain_name b).
Proof. unfold plain_name. apply _. Defined.

(** * Proofs *)

Example split_ex : split (" a" +:+ tab +:+ "bc  d" +:+ nl) = ["a"; "bc"; "d"].
Proof. vm_compute. reflexivity. Qed.
Example strip_ex : strip ("  a b " +:+ nl) = "a b".
Proof. vm_compute. reflexivity. Qed.
Example lines_ex : file_lines ("ab" +:+ nl +:+ nl +:+ "c") = ["ab" +:+ nl; nl; "c"].
Proof. vm_compute. reflexivity. Qed.
Example ex_rowlike_loaded :
  load_bin_contig_map ex_map_rowlike = [("A", {["c1"]})].
Proof. by vm_compute. Qed.
Example ex_dup_text :
  files (io_of (split_fasta_by_bin ex_fasta_dup [("A", {["c1"]})] None))
    !! "A.fasta"
  = Some (">c1" +:+ nl +:+ "AC" +:+ nl +:+ ">c1" +:+ nl +:+ "GG" +:+ nl).
Proof. by vm_compute. Qed.
Example ex_run :
  (main {| assembly := "asm.fa"; map := "map.tsv" |} ex_world).1 = Exit0.
Proof. vm_compute. reflexivity. Qed.


Lemma foldl_unfold {A B} (f : A → B → A) (a : A) (x : B) (l : list B) :
  foldl f a (x :: l) = foldl f (f a x) l.
Proof. reflexivity. Qed.

Section filter_facts.
Context {A : Type} (P : A → Prop) `{!∀ x, Decision (P x)}.

Lemma filter_none (l : list A) : (∀ x, x ∈ l → ¬ P x) → filter P l = [].
Proof.
  induction l as [|x l IH]; intros Hl; [done |].
  rewrite filter_cons, decide_False by (apply Hl; by left).
  apply IH. intros y Hy. apply Hl. by right.
Qed.

Lemma filter_one (l : list A) (x : A) :
  filter P l = [x] →
  ∃ l1 l2, l = l1 ++ x :: l2 ∧ filter P l1 = [] ∧ filter P l2 = [].
Proof.
  induction l as [|y l IH]; [done |].
  rewrite filter_cons. destruct (decide (P y)) as [Hy|Hy].
  - intros [= -> Hl]. by exists [], l.
  - intros Hl. destruct (IH Hl) as (l1 & l2 & -> & H1 & H2).
    exists (y :: l1), l2. split; [done |]. split; [| done].
    by rewrite filter_cons, decide_False.
Qed.
End filter_facts.

(** ** Strings *)

Section string_facts.
Implicit Types s t u : string.

Lemma str_app_nil_l s : "" +:+ s = s.
Proof. reflexivity. Qed.

Lemma str_app_cons a s t : String a s +:+ t = String a (s +:+ t).
Proof. reflexivity. Qed.

Lemma str_app_nil_r s : s +:+ "" = s.
Proof.
  induction s as [|a s IH]; [done |]. by rewrite str_app_cons, IH.
Qed.

Lemma str_app_assoc s t u : (s +:+ t) +:+ u = s +:+ (t +:+ u).
Proof.
  induction s as [|a s IH]; [done |]. by rewrite !str_app_cons, IH.
Qed.

Lemma str_length_app s t :
  String.length (s +:+ t) = String.length s + String.length t.
Proof.
  induction s as [|a s IH]; [done |]. rewrite str_app_cons. simpl.
  by rewrite IH.
Qed.

Lemma str_app_inv_tail s t u : s +:+ u = t +:+ u → s = t.
Proof.
  revert t. induction s as [|a s IH]; intros [|b t] H.
  - done.
  - apply (f_equal String.length) in H.
    rewrite str_app_cons, str_app_nil_l in H. simpl in H.
    rewrite str_length_app in H. lia.
  - apply (f_equal String.length) in H.
    rewrite str_app_cons, str_app_nil_l in H. simpl in H.
    rewrite str_length_app in H. lia.
  - rewrite !str_app_cons in H. injection H as -> H. f_equal. by apply IH.
Qed.

Lemma join_cons s (l : list string) : join (s :: l) = s +:+ join l.
Proof. reflexivity. Qed.

Lemma join_app (l k : list string) : join (l ++ k) = join l +:+ join k.
Proof.
  induction l as [|x l IH]; [done |].
  by rewrite <- app_comm_cons, !join_cons, IH, str_app_assoc.
Qed.
End string_facts.

Lemma marker_line_app c s : marker_line c +:+ s = ">" +:+ c +:+ nl +:+ s.
Proof. unfold marker_line. by rewrite !str_app_assoc. Qed.

Lemma fasta_name_inj b b' : fasta_name b = fasta_name b' → b = b'.
Proof. apply str_app_inv_tail. Qed.

(** ** The inverted index *)

Lemma index_contigs_lookup b idx (cs : list string) c :
  NoDup cs →
  foldl (index_contig b) idx cs !! c =
    if decide (c ∈ cs) then Some (default [] (idx !! c) ++ [b]) else idx !! c.
Proof.
  revert idx. induction cs as [|x cs IH]; intros idx Hnd.
  - destruct (decide (c ∈ [])) as [Hc|]; [by apply elem_of_nil in Hc | done].
  - apply NoDup_cons in Hnd as [Hx Hnd]. simpl. rewrite IH by done.
    unfold index_contig. destruct (decide (c = x)) as [->|Hne].
    + rewrite lookup_insert_eq.
      destruct (decide (x ∈ cs)); [done |].
      destruct (decide (x ∈ x :: cs)) as [|Hc]; [done |].
      exfalso. apply Hc. by left.
    + rewrite lookup_insert_ne by done.
      destruct (decide (c ∈ cs)) as [Hin|Hin],
        (decide (c ∈ x :: cs)) as [Hc|Hc]; try done.
      * exfalso. apply Hc. by right.
      * apply elem_of_cons in Hc as [?|?]; done.
Qed.

Lemma owners_cons c item m :
  owners c (item :: m) =
    if decide (c ∈ item.2) then item.1 :: owners c m else owners c m.
Proof.
  unfold owners. rewrite filter_cons. by destruct (decide (c ∈ item.2)).
Qed.

Section any_set_order.
Variable iter : gset string → list string.
Hypothesis iter_order : set_order iter.

Lemma index_in_lookup idx (item : string * gset string) c :
  foldl (index_contig item.1) idx (iter item.2) !! c =
    if decide (c ∈ item.2) then Some (default [] (idx !! c) ++ [item.1])
    else idx !! c.
Proof.
  destruct (iter_order item.2) as [Hnd Hin].
  rewrite index_contigs_lookup by done.
  destruct (decide (c ∈ iter item.2)) as [Hc|Hc], (decide (c ∈ item.2)) as [Hs|Hs];
    try done.
  - by apply Hin in Hc.
  - by apply Hin in Hs.
Qed.

Lemma invert_in_from_lookup idx m c :
  foldl (λ idx item, foldl (index_contig item.1) idx (iter item.2)) idx m !! c =
    match owners c m with
    | [] => idx !! c
    | bs => Some (default [] (idx !! c) ++ bs)
    end.
Proof.
  revert idx. induction m as [|item m IH]; intros idx; [done |].
  rewrite foldl_unfold, IH, index_in_lookup, owners_cons.
  destruct (decide (c ∈ item.2)) as [Hin|Hin]; [| done].
  destruct (owners c m); simpl; [done |]. by rewrite <- app_assoc.
Qed.

Lemma invert_in_lookup m c :
  invert_in iter m !! c = match owners c m with [] => None | bs => Some bs end.
Proof.
  unfold invert_in. rewrite invert_in_from_lookup. by rewrite lookup_empty.
Qed.
End any_set_order.

Lemma set_order_elements : set_order elements.
Proof.
  intros s. split; [apply NoDup_elements |]. intros x. apply elem_of_elements.
Qed.

(** The index lists, for every contig, the bins that own it, in the order
    of the dictionary, whatever the iteration order of the sets. *)
Lemma invert_lookup m c :
  invert m !! c = match owners c m with [] => None | bs => Some bs end.
Proof. apply (invert_in_lookup elements set_order_elements). Qed.

Lemma invert_any_order iter m : set_order iter → invert_in iter m = invert m.
Proof.
  intros Hord. apply map_eq. intros c.
  by rewrite invert_in_lookup, invert_lookup.
Qed.

Lemma elem_of_owners m b c :
  b ∈ owners c m ↔ ∃ s, (b, s) ∈ m ∧ c ∈ s.
Proof.
  unfold owners. rewrite list_elem_of_fmap. split.
  - intros ([b' s] & -> & Hy). apply list_elem_of_filter in Hy as [? ?].
    by exists s.
  - intros (s & Hin & Hc). exists (b, s). split; [done |].
    by apply list_elem_of_filter.
Qed.

Lemma owners_NoDup m c : NoDup m.*1 → NoDup (owners c m).
Proof.
  induction m as [|item m IH]; intros Hnd.
  - constructor.
  - rewrite fmap_cons in Hnd. apply NoDup_cons in Hnd as [Hx Hnd].
    rewrite owners_cons. destruct (decide (c ∈ item.2)); [| by apply IH].
    apply NoDup_cons. split; [| by apply IH].
    intros (s & Hin & _)%elem_of_owners. apply Hx.
    apply list_elem_of_fmap. by exists (item.1, s).
Qed.

(** ** Writing records *)

Lemma write_record_writers c buf st b :
  handles_ok st →
  writers (write_record c buf st b) = <[b := fasta_name b]> (writers st).
Proof.
  intros Hok. unfold write_record.
  destruct (writers st !! b) as [fh|] eqn:Hw; simpl.
  - destruct (Hok _ _ Hw) as [-> _]. rewrite Hw. simpl. by rewrite insert_id.
  - by rewrite lookup_insert_eq.
Qed.

Lemma write_record_files c buf st b :
  handles_ok st →
  files (write_record c buf st b) =
    <[fasta_name b := base_text st b +:+ render (c, buf)]> (files st).
Proof.
  intros Hok. unfold write_record, base_text, render, fwrite, fopen_w.
  destruct (writers st !! b) as [fh|] eqn:Hw; simpl.
  - destruct (Hok _ _ Hw) as [-> [text Ht]]. rewrite Hw, Ht. simpl.
    apply map_eq. intros f. destruct (decide (f = fasta_name b)) as [->|Hne].
    + rewrite lookup_insert_eq, !lookup_alter_eq, Ht. simpl.
      by rewrite str_app_assoc, marker_line_app.
    + by rewrite lookup_insert_ne, !lookup_alter_ne by done.
  - rewrite lookup_insert_eq. simpl.
    apply map_eq. intros f. destruct (decide (f = fasta_name b)) as [->|Hne].
    + rewrite lookup_insert_eq, !lookup_alter_eq, lookup_insert_eq. simpl.
      by rewrite str_app_assoc, marker_line_app.
    + by rewrite lookup_insert_ne, !lookup_alter_ne, lookup_insert_ne by done.
Qed.

Lemma write_record_ok c buf st b :
  handles_ok st → handles_ok (write_record c buf st b).
Proof.
  intros Hok b' fh. rewrite write_record_writers, write_record_files by done.
  destruct (decide (b' = b)) as [->|Hne].
  - rewrite lookup_insert_eq. intros [= <-]. split; [done |].
    rewrite lookup_insert_eq. by eexists.
  - rewrite lookup_insert_ne by done. intros Hw.
    destruct (Hok _ _ Hw) as [-> Hs]. split; [done |].
    rewrite lookup_insert_ne; [done |]. by intros ?%fasta_name_inj.
Qed.

Lemma texts_for_cons b ev evs :
  texts_for b (ev :: evs) =
    if decide (ev.1 = b) then render ev.2 :: texts_for b evs
    else texts_for b evs.
Proof.
  unfold texts_for. rewrite filter_cons. by destruct (decide (ev.1 = b)).
Qed.

Lemma write_events_ok st evs :
  handles_ok st → handles_ok (foldl write_event st evs).
Proof.
  revert st. induction evs as [|ev evs IH]; intros st Hok; [done |].
  simpl. apply IH. by apply write_record_ok.
Qed.

Lemma write_events_writers st evs b :
  handles_ok st →
  writers (foldl write_event st evs) !! b =
    if decide (b ∈ evs.*1) then Some (fasta_name b) else writers st !! b.
Proof.
  revert st. induction evs as [|ev evs IH]; intros st Hok.
  - destruct (decide (b ∈ [])) as [Hc|]; [by apply elem_of_nil in Hc | done].
  - rewrite foldl_unfold, IH by by apply write_record_ok.
    unfold write_event. rewrite write_record_writers by done.
    rewrite fmap_cons. destruct (decide (b ∈ evs.*1)) as [Hin|Hin].
    + destruct (decide (b ∈ ev.1 :: evs.*1)) as [|Hn]; [done |].
      exfalso. apply Hn. by right.
    + destruct (decide (b = ev.1)) as [->|Hne].
      * rewrite lookup_insert_eq.
        destruct (decide (ev.1 ∈ ev.1 :: evs.*1)) as [|Hn]; [done |].
        exfalso. apply Hn. by left.
      * rewrite lookup_insert_ne by done.
        destruct (decide (b ∈ ev.1 :: evs.*1)) as [Hc|]; [| done].
        apply elem_of_cons in Hc as [?|?]; done.
Qed.

(** The text of the file of bin [b] after a list of write events. *)
Lemma write_events_file st evs b :
  handles_ok st →
  files (foldl write_event st evs) !! fasta_name b =
    match texts_for b evs with
    | [] => files st !! fasta_name b
    | ts => Some (base_text st b +:+ join ts)
    end.
Proof.
  revert st. induction evs as [|ev evs IH]; intros st Hok; [done |].
  rewrite foldl_unfold, IH by by apply write_record_ok.
  rewrite texts_for_cons. unfold write_event, base_text at 1.
  rewrite write_record_writers, write_record_files by done.
  destruct (decide (ev.1 = b)) as [<-|Hne].
  - rewrite !lookup_insert_eq. simpl.
    destruct ev as [b [c buf]]; simpl.
    destruct (texts_for b evs) as [|t ts].
    + change (join []) with "". by rewrite str_app_nil_r.
    + by rewrite str_app_assoc.
  - rewrite !(lookup_insert_ne (files st)) by (by intros ?%fasta_name_inj).
    by rewrite lookup_insert_ne by done.
Qed.

(** Files that are no bin file of an event are left as they are. *)
Lemma write_events_other st evs f :
  handles_ok st →
  (∀ b, b ∈ evs.*1 → f ≠ fasta_name b) →
  files (foldl write_event st evs) !! f = files st !! f.
Proof.
  revert st. induction evs as [|ev evs IH]; intros st Hok Hf; [done |].
  rewrite foldl_unfold, IH.
  - unfold write_event. rewrite write_record_files by done.
    rewrite lookup_insert_ne; [done |]. intros <-. eapply Hf; [| done].
    rewrite fmap_cons. by left.
  - by apply write_record_ok.
  - intros b Hb. apply Hf. rewrite fmap_cons. by right.
Qed.

(** ** The streaming loop reads the records and flushes them in order *)

Lemma flush_close idx cur buf st :
  flush idx cur buf st = foldl (flush_record idx) st (close_record cur buf).
Proof. by destruct cur. Qed.

Lemma read_lines_parse idx r lines :
  finish idx (read_lines idx r lines) =
    let p := parse_from (current_contig r) (seq_buffer r) lines in
    ended p.2 (foldl (flush_record idx) (out r) p.1).
Proof.
  revert r. induction lines as [|line rest IH]; intros [cur buf st].
  - simpl. by rewrite flush_close.
  - simpl. unfold read_line. simpl.
    destruct (startswith_gt line).
    + destruct (split (strip (drop1 line))) as [|tok toks]; simpl.
      * by rewrite flush_close.
      * rewrite IH. simpl. by rewrite foldl_app, <- flush_close.
    + by rewrite IH.
Qed.

Lemma flush_record_events m st rec :
  flush_record (invert m) st rec =
    foldl write_event st ((λ b, (b, rec)) <$> owners rec.1 m).
Proof.
  unfold flush_record, flush. rewrite invert_lookup.
  assert (∀ bs st, foldl (write_record rec.1 rec.2) st bs =
            foldl write_event st ((λ b, (b, rec)) <$> bs)) as Hf.
  { induction bs as [|b bs IH]; intros st'; [done |].
    rewrite fmap_cons, !foldl_unfold, IH. by destruct rec. }
  destruct (owners rec.1 m) eqn:Ho; [done |]. by rewrite Hf.
Qed.

Lemma flush_records_events m st recs :
  foldl (flush_record (invert m)) st recs = foldl write_event st (events m recs).
Proof.
  revert st. induction recs as [|rec recs IH]; intros st; [done |].
  unfold events. rewrite bind_cons, foldl_app, foldl_unfold.
  by rewrite flush_record_events, IH.
Qed.

Lemma split_lines_final lines m outdir :
  split_lines lines m outdir = ended (well_marked lines) (final_io lines m outdir).
Proof.
  unfold split_lines, final_io.
  pose proof (read_lines_parse (invert m) (reader0 (mkdir outdir)) lines) as H.
  unfold finish in H. simpl in H.
  rewrite flush_records_events in H. exact H.
Qed.

(** ** The text of every bin file *)

Lemma texts_for_app b evs evs' :
  texts_for b (evs ++ evs') = texts_for b evs ++ texts_for b evs'.
Proof. unfold texts_for. by rewrite filter_app, !fmap_app. Qed.

Lemma texts_for_record b rec (bs : list string) :
  NoDup bs →
  texts_for b ((λ b', (b', rec)) <$> bs) =
    if decide (b ∈ bs) then [render rec] else [].
Proof.
  induction bs as [|x bs IH]; intros Hnd.
  - destruct (decide (b ∈ [])) as [Hc|]; [by apply elem_of_nil in Hc | done].
  - apply NoDup_cons in Hnd as [Hx Hnd].
    rewrite fmap_cons, texts_for_cons, IH by done. simpl.
    destruct (decide (x = b)) as [->|Hne].
    + destruct (decide (b ∈ bs)) as [|_]; [done |].
      destruct (decide (b ∈ b :: bs)) as [|Hn]; [done |].
      exfalso. apply Hn. by left.
    + destruct (decide (b ∈ bs)) as [Hin|Hin].
      * destruct (decide (b ∈ x :: bs)) as [|Hn]; [done |].
        exfalso. apply Hn. by right.
      * destruct (decide (b ∈ x :: bs)) as [Hc|]; [| done].
        apply elem_of_cons in Hc as [?|?]; done.
Qed.

Lemma bin_records_cons m b rec recs :
  bin_records m b (rec :: recs) =
    if decide (b ∈ owners rec.1 m) then rec :: bin_records m b recs
    else bin_records m b recs.
Proof.
  unfold bin_records. rewrite filter_cons.
  by destruct (decide (b ∈ owners rec.1 m)).
Qed.

Lemma events_cons m rec recs :
  events m (rec :: recs) =
    ((λ b, (b, rec)) <$> owners rec.1 m) ++ events m recs.
Proof. unfold events. by rewrite bind_cons. Qed.

Lemma texts_for_events m b recs :
  NoDup m.*1 →
  texts_for b (events m recs) = render <$> bin_records m b recs.
Proof.
  intros Hnd. induction recs as [|rec recs IH]; [done |].
  rewrite events_cons, texts_for_app, IH, bin_records_cons.
  rewrite texts_for_record by by apply owners_NoDup.
  by destruct (decide (b ∈ owners rec.1 m)).
Qed.

Lemma elem_of_events_bins m b recs :
  b ∈ (events m recs).*1 ↔ bin_records m b recs ≠ [].
Proof.
  induction recs as [|rec recs IH].
  - split; [by intros ?%elem_of_nil | done].
  - rewrite events_cons, fmap_app, elem_of_app, IH, bin_records_cons.
    rewrite <- list_fmap_compose.
    destruct (decide (b ∈ owners rec.1 m)) as [Hin|Hin].
    + split; [done |]. intros _. left.
      apply list_elem_of_fmap. by exists b.
    + split; [| by right]. intros [Hc|?]; [| done].
      apply list_elem_of_fmap in Hc as (b' & -> & ?). done.
Qed.

Lemma handles_ok_init fs : handles_ok (init_io fs).
Proof. intros b fh. simpl. by rewrite lookup_empty. Qed.

(** The registry holds exactly the bins that own a record of the file. *)
Lemma final_io_writers lines m outdir b :
  writers (final_io lines m outdir) !! b =
    match bin_records m b (records lines) with
    | [] => None
    | _ => Some (fasta_name b)
    end.
Proof.
  unfold final_io. rewrite write_events_writers by apply handles_ok_init.
  simpl. rewrite lookup_empty.
  destruct (decide (b ∈ (events m (records lines)).*1)) as [Hin|Hin];
    rewrite elem_of_events_bins in Hin.
  - by destruct (bin_records m b (records lines)).
  - destruct (bin_records m b (records lines)); [done |].
    exfalso. by apply Hin.
Qed.

(** The file of a bin holds the records the bin owns, in file order; the
    file of a bin that owns no record of the file is left as it was. *)
Lemma final_io_bin_file lines m outdir b :
  NoDup m.*1 →
  files (final_io lines m outdir) !! fasta_name b =
    match bin_records m b (records lines) with
    | [] => mkdir outdir !! fasta_name b
    | rs => Some (render_all rs)
    end.
Proof.
  intros Hnd. unfold final_io.
  rewrite write_events_file by apply handles_ok_init.
  rewrite texts_for_events by done. unfold render_all, base_text. simpl.
  rewrite lookup_empty.
  by destruct (bin_records m b (records lines)).
Qed.

Lemma final_io_other_file lines m outdir f :
  (∀ b, bin_records m b (records lines) ≠ [] → f ≠ fasta_name b) →
  files (final_io lines m outdir) !! f = mkdir outdir !! f.
Proof.
  intros Hf. unfold final_io.
  rewrite write_events_other; [done | apply handles_ok_init |].
  intros b Hb. apply Hf. by apply elem_of_events_bins.
Qed.

(** ** [strip] and [split] *)

Lemma split_from_nil tok : split_from tok "" = if decide (tok = "") then [] else [tok].
Proof. reflexivity. Qed.

Lemma split_from_cons tok a s :
  split_from tok (String a s) =
    if is_space a
    then (if decide (tok = "") then split_from "" s else tok :: split_from "" s)
    else split_from (tok +:+ String a "") s.
Proof. reflexivity. Qed.

Lemma rstrip_cons a s :
  rstrip (String a s) =
    match rstrip s with
    | EmptyString => if is_space a then EmptyString else String a EmptyString
    | r => String a r
    end.
Proof. reflexivity. Qed.

Lemma split_lstrip s : split (lstrip s) = split s.
Proof.
  unfold split. induction s as [|a s IH]; [done |].
  simpl lstrip. rewrite (split_from_cons "" a s).
  destruct (is_space a) eqn:Ha; [| by rewrite split_from_cons, Ha].
  by rewrite decide_True by done.
Qed.

Lemma split_from_rstrip tok s : split_from tok (rstrip s) = split_from tok s.
Proof.
  revert tok. induction s as [|a s IH]; intros tok; [done |].
  rewrite rstrip_cons, (split_from_cons tok a s).
  destruct (rstrip s) as [|b r] eqn:Hr.
  - destruct (is_space a) eqn:Ha.
    + rewrite <- (IH ""). change (split_from "" "") with (@nil string).
      rewrite split_from_nil. by destruct (decide (tok = "")).
    + rewrite <- IH, split_from_cons, Ha. done.
  - rewrite split_from_cons. by rewrite !IH.
Qed.

(** Whitespace around a line does not change its fields. *)
Lemma split_strip s : split (strip s) = split s.
Proof.
  unfold strip. rewrite <- (split_lstrip s). unfold split.
  apply split_from_rstrip.
Qed.

Lemma strip_blank_split s : strip s = "" → split s = [].
Proof. intros H. by rewrite <- split_strip, H. Qed.

(** ** The mapping loader *)

Lemma load_row_pair d line :
  load_row d line =
    match row_pair line with
    | Some (b, c) => add_contig b c d
    | None => d
    end.
Proof.
  unfold load_row, row_pair. rewrite split_strip.
  destruct (decide (strip line = "")) as [Hb|Hb].
  - by rewrite (strip_blank_split _ Hb).
  - by destruct (split line) as [|b [|c rest]].
Qed.

Lemma add_contig_maps_to b c d b' c' :
  maps_to (add_contig b c d) b' c' ↔ (b' = b ∧ c' = c) ∨ maps_to d b' c'.
Proof.
  unfold maps_to. induction d as [|[k s] d IH]; simpl.
  - split.
    + intros (s & Hin & Hc). apply list_elem_of_singleton in Hin as [= -> ->].
      left. split; [done |]. by apply elem_of_singleton in Hc.
    + intros [[-> ->]|(s & Hin & _)]; [| by apply elem_of_nil in Hin].
      exists {[c]}. split; [by apply list_elem_of_singleton |].
      by apply elem_of_singleton.
  - destruct (decide (k = b)) as [->|Hne].
    + split.
      * intros (s' & Hin & Hc). apply elem_of_cons in Hin as [[= -> ->]|Hin].
        -- apply elem_of_union in Hc as [Hc|Hc].
           ++ left. split; [done |]. by apply elem_of_singleton in Hc.
           ++ right. exists s. split; [by left | done].
        -- right. exists s'. split; [by right | done].
      * intros [[-> ->]|(s' & Hin & Hc)].
        -- exists ({[c]} ∪ s). split; [by left |].
           apply elem_of_union. left. by apply elem_of_singleton.
        -- apply elem_of_cons in Hin as [[= -> ->]|Hin].
           ++ exists ({[c]} ∪ s). split; [by left |].
              apply elem_of_union. by right.
           ++ exists s'. split; [by right | done].
    + split.
      * intros (s' & Hin & Hc). apply elem_of_cons in Hin as [[= -> ->]|Hin].
        -- right. exists s. split; [by left | done].
        -- destruct (proj1 IH) as [?|(s'' & ? & ?)]; [by exists s' | by left |].
           right. exists s''. split; [by right | done].
      * intros [Heq|(s' & Hin & Hc)].
        -- destruct (proj2 IH (or_introl Heq)) as (s' & ? & ?).
           exists s'. split; [by right | done].
        -- apply elem_of_cons in Hin as [[= -> ->]|Hin].
           ++ exists s. split; [by left | done].
           ++ destruct (proj2 IH) as (s'' & ? & ?); [right; by exists s' |].
              exists s''. split; [by right | done].
Qed.

Lemma add_contig_cons b c k s d :
  add_contig b c ((k, s) :: d) =
    if decide (k = b) then (k, {[c]} ∪ s) :: d else (k, s) :: add_contig b c d.
Proof. reflexivity. Qed.

Lemma add_contig_keys b c d :
  (add_contig b c d).*1 = if decide (b ∈ d.*1) then d.*1 else d.*1 ++ [b].
Proof.
  induction d as [|[k s] d IH].
  - destruct (decide (b ∈ [].*1)) as [Hc|]; [by apply elem_of_nil in Hc | done].
  - rewrite add_contig_cons.
    destruct (decide (k = b)) as [->|Hne]; rewrite !fmap_cons; cbn [fst].
    + destruct (decide (b ∈ b :: d.*1)) as [|Hn]; [done |].
      exfalso. apply Hn. by left.
    + rewrite IH. destruct (decide (b ∈ d.*1)) as [Hin|Hin].
      * destruct (decide (b ∈ k :: d.*1)) as [|Hn]; [done |].
        exfalso. apply Hn. by right.
      * destruct (decide (b ∈ k :: d.*1)) as [Hc|]; [| done].
        apply elem_of_cons in Hc as [?|?]; done.
Qed.

Lemma add_contig_NoDup b c d : NoDup d.*1 → NoDup (add_contig b c d).*1.
Proof.
  intros Hnd. rewrite add_contig_keys.
  destruct (decide (b ∈ d.*1)); [done |].
  apply NoDup_app. split; [done |]. split.
  - intros x Hx ->%list_elem_of_singleton. done.
  - apply NoDup_singleton.
Qed.

Lemma load_rows_NoDup d lines : NoDup d.*1 → NoDup (foldl load_row d lines).*1.
Proof.
  revert d. induction lines as [|line lines IH]; intros d Hnd; [done |].
  rewrite foldl_unfold. apply IH. rewrite load_row_pair.
  destruct (row_pair line) as [[b c]|]; [| done].
  by apply add_contig_NoDup.
Qed.

Lemma load_rows_maps_to d lines b c :
  maps_to (foldl load_row d lines) b c ↔
    maps_to d b c ∨ ∃ line, line ∈ lines ∧ row_pair line = Some (b, c).
Proof.
  revert d. induction lines as [|line lines IH]; intros d.
  - split; [by left |]. intros [?|(l & Hl & _)]; [done |].
    by apply elem_of_nil in Hl.
  - rewrite foldl_unfold, IH, load_row_pair. split.
    + intros [Hm|(l & Hl & Hr)].
      * destruct (row_pair line) as [[b0 c0]|] eqn:Hrow; [| by left].
        apply add_contig_maps_to in Hm as [[-> ->]|Hm]; [| by left].
        right. exists line. split; [by left | done].
      * right. exists l. split; [by right | done].
    + intros [Hm|(l & Hl & Hr)].
      * left. destruct (row_pair line) as [[b0 c0]|]; [| done].
        apply add_contig_maps_to. by right.
      * apply elem_of_cons in Hl as [->|Hl].
        -- left. rewrite Hr. apply add_contig_maps_to. by left.
        -- right. by exists l.
Qed.

Lemma load_NoDup tsv : NoDup (load_bin_contig_map tsv).*1.
Proof. apply load_rows_NoDup. constructor. Qed.

(** ** The lines of a text *)

Lemma file_lines_cons a s :
  file_lines (String a s) =
    if bool_decide (a = newline) then nl :: file_lines s
    else match file_lines s with
         | [] => [String a ""]
         | l :: ls => String a l :: ls
         end.
Proof. reflexivity. Qed.

Lemma no_nl_cons a s :
  no_nl (String a s) = negb (bool_decide (a = newline)) && no_nl s.
Proof. reflexivity. Qed.

Lemma no_nl_cons_inv a s :
  no_nl (String a s) = true → bool_decide (a = newline) = false ∧ no_nl s = true.
Proof.
  rewrite no_nl_cons. intros [Ha Hs]%andb_true_iff. split; [| done].
  by apply negb_true_iff.
Qed.

Lemma file_lines_line t s :
  no_nl t = true → file_lines ((t +:+ nl) +:+ s) = (t +:+ nl) :: file_lines s.
Proof.
  induction t as [|a t IH]; intros Ht.
  - done.
  - apply no_nl_cons_inv in Ht as [Ha Ht].
    rewrite !str_app_cons, file_lines_cons, Ha, IH by done. done.
Qed.

Lemma file_lines_last t :
  last_line t → file_lines t = [t].
Proof.
  intros [Hne Ht]. induction t as [|a t IH]; [done |].
  apply no_nl_cons_inv in Ht as [Ha Ht]. rewrite file_lines_cons, Ha.
  destruct t as [|b t]; [done |]. by rewrite IH.
Qed.

Lemma text_line_cons a l :
  bool_decide (a = newline) = false → text_line l → text_line (String a l).
Proof.
  intros Ha (t & -> & Ht). exists (String a t). split; [done |].
  by rewrite no_nl_cons, Ha.
Qed.

Lemma last_line_cons a l :
  bool_decide (a = newline) = false → no_nl l = true → last_line (String a l).
Proof. intros Ha Hl. split; [done |]. by rewrite no_nl_cons, Ha. Qed.

Lemma text_line_nl : text_line nl.
Proof. by exists "". Qed.

Lemma lines_ok_cons l ls : text_line l → lines_ok ls → lines_ok (l :: ls).
Proof. intros Hl Hls. destruct ls; simpl; [by left | done]. Qed.

Lemma lines_ok_app ls ls' :
  Forall text_line ls → lines_ok ls' → lines_ok (ls ++ ls').
Proof.
  induction 1 as [|l ls Hl Hls IH]; intros Hok; [done |].
  apply lines_ok_cons; [done | by apply IH].
Qed.

Lemma lines_ok_all ls : Forall text_line ls → lines_ok ls.
Proof. intros H. rewrite <- (app_nil_r ls). by apply lines_ok_app. Qed.

Lemma lines_ok_app_inv ls l ls' :
  lines_ok (ls ++ l :: ls') → Forall text_line ls ∧ lines_ok (l :: ls').
Proof.
  induction ls as [|x ls IH]; intros Hok; [done |].
  rewrite <- app_comm_cons in Hok. simpl in Hok.
  destruct (ls ++ l :: ls') eqn:He; [by destruct ls |].
  destruct Hok as [Hx Hok]. destruct (IH Hok) as [? ?]. split; [| done].
  by constructor.
Qed.

(** The lines of any text have this shape. *)
Lemma file_lines_ok s : lines_ok (file_lines s).
Proof.
  induction s as [|a s IH]; [done |].
  rewrite file_lines_cons. destruct (bool_decide (a = newline)) eqn:Ha.
  - apply lines_ok_cons; [apply text_line_nl | done].
  - destruct (file_lines s) as [|l ls]; [right; by apply last_line_cons |].
    simpl in *. destruct ls.
    + destruct IH as [Hl|[_ Hl]].
      * left. by apply text_line_cons.
      * right. by apply last_line_cons.
    + destruct IH as [Hl Hls]. split; [| done]. by apply text_line_cons.
Qed.

(** A text is the concatenation of its lines. *)
Lemma join_file_lines s : join (file_lines s) = s.
Proof.
  induction s as [|a s IH]; [done |].
  rewrite file_lines_cons. destruct (bool_decide (a = newline)) eqn:Ha.
  - apply bool_decide_eq_true_1 in Ha as ->. by rewrite join_cons, IH.
  - destruct (file_lines s) as [|l ls].
    + rewrite <- IH. done.
    + rewrite join_cons, str_app_cons. rewrite join_cons in IH. by rewrite IH.
Qed.

(** Lines of this shape are the lines of their concatenation. *)
Lemma file_lines_join ls : lines_ok ls → file_lines (join ls) = ls.
Proof.
  induction ls as [|l ls IH]; intros Hok; [done |].
  rewrite join_cons. simpl in Hok. destruct ls as [|l' ls].
  - change (join []) with "". rewrite str_app_nil_r.
    destruct Hok as [(t & -> & Ht)|Hl].
    + pose proof (file_lines_line t "" Ht) as H.
      by rewrite str_app_nil_r in H.
    + by apply file_lines_last.
  - destruct Hok as [(t & -> & Ht) Hok].
    rewrite file_lines_line by done. by rewrite IH.
Qed.

(** ** Tokens *)

Lemma no_space_cons a s :
  no_space (String a s) = negb (is_space a) && no_space s.
Proof. reflexivity. Qed.

Lemma no_space_app s t : no_space (s +:+ t) = no_space s && no_space t.
Proof.
  induction s as [|a s IH]; [done |].
  by rewrite str_app_cons, !no_space_cons, IH, andb_assoc.
Qed.

Lemma no_space_no_nl s : no_space s = true → no_nl s = true.
Proof.
  induction s as [|a s IH]; [done |].
  rewrite no_space_cons, no_nl_cons.
  intros [Ha Hs]%andb_true_iff. rewrite IH by done.
  destruct (bool_decide (a = newline)) eqn:Hn; [| done].
  apply bool_decide_eq_true_1 in Hn as ->. done.
Qed.

Lemma str_app_not_nil s a : s +:+ String a "" ≠ "".
Proof. by destruct s. Qed.

(** Every field that [split] produces is a token. *)
Lemma split_from_tokens tok s :
  no_space tok = true → Forall is_token (split_from tok s).
Proof.
  revert tok. induction s as [|a s IH]; intros tok Htok.
  - rewrite split_from_nil. destruct (decide (tok = "")); by repeat constructor.
  - rewrite split_from_cons. destruct (is_space a) eqn:Ha.
    + destruct (decide (tok = "")); [by apply IH |].
      constructor; [done | by apply IH].
    + apply IH. by rewrite no_space_app, Htok, no_space_cons, Ha.
Qed.

Lemma split_tokens s : Forall is_token (split s).
Proof. by apply split_from_tokens. Qed.

Lemma split_from_no_space tok c s :
  no_space c = true → split_from tok (c +:+ s) = split_from (tok +:+ c) s.
Proof.
  revert tok. induction c as [|a c IH]; intros tok Hc.
  - by rewrite str_app_nil_r.
  - rewrite no_space_cons in Hc. apply andb_true_iff in Hc as [Ha Hc].
    apply negb_true_iff in Ha.
    rewrite str_app_cons, split_from_cons, Ha, IH by done.
    by rewrite str_app_assoc.
Qed.

(** The identifier read back from a written marker line. *)
Lemma marker_line_id c :
  is_token c → split (strip (drop1 (marker_line c))) = [c].
Proof.
  intros [Hne Hc]. rewrite split_strip. unfold marker_line, split.
  change (drop1 (">" +:+ c +:+ nl)) with (c +:+ nl).
  rewrite split_from_no_space by done. rewrite str_app_nil_l.
  unfold nl. rewrite split_from_cons.
  change (is_space newline) with true. cbv iota.
  by rewrite decide_False by done.
Qed.

Lemma marker_line_starts c : startswith_gt (marker_line c) = true.
Proof. reflexivity. Qed.

Lemma marker_line_text c : is_token c → text_line (marker_line c).
Proof.
  intros [_ Hc]. exists (">" +:+ c). split.
  - unfold marker_line. by rewrite str_app_assoc.
  - rewrite str_app_cons, no_nl_cons, str_app_nil_l.
    by rewrite no_space_no_nl.
Qed.

(** ** The records of a list of lines *)

Lemma parse_from_cons cur buf line rest :
  parse_from cur buf (line :: rest) =
    if startswith_gt line then
      match split (strip (drop1 line)) with
      | [] => (close_record cur buf, false)
      | tok :: _ =>
          let p := parse_from (Some tok) [] rest in
          (close_record cur buf ++ p.1, p.2)
      end
    else parse_from cur (buf ++ [line]) rest.
Proof. reflexivity. Qed.

Lemma parse_from_body cur buf body rest :
  body_ok body →
  parse_from cur buf (body ++ rest) = parse_from cur (buf ++ body) rest.
Proof.
  intros Hb. revert buf. induction Hb as [|l body Hl Hb IH]; intros buf.
  - by rewrite app_nil_r.
  - rewrite <- app_comm_cons, parse_from_cons, Hl, IH.
    by rewrite <- app_assoc.
Qed.

Lemma parse_from_marker cur buf c rest :
  is_token c →
  parse_from cur buf (marker_line c :: rest) =
    let p := parse_from (Some c) [] rest in
    (close_record cur buf ++ p.1, p.2).
Proof.
  intros Hc. by rewrite parse_from_cons, marker_line_starts, marker_line_id.
Qed.

Lemma recs_ok_inv rec recs :
  recs_ok (rec :: recs) → is_token rec.1 ∧ body_ok rec.2 ∧ recs_ok recs.
Proof.
  simpl. intros (? & ? & H). destruct recs; [done |]. by destruct H.
Qed.

(** Records written as lines are read back as they were. *)
Lemma parse_from_record_lines cur buf recs :
  recs_ok recs →
  parse_from cur buf (recs ≫= record_lines) = (close_record cur buf ++ recs, true).
Proof.
  revert cur buf. induction recs as [|[c body] recs IH]; intros cur buf Hok.
  - by rewrite app_nil_r.
  - apply recs_ok_inv in Hok as (Hc & Hb & Hok).
    rewrite bind_cons. unfold record_lines at 1.
    rewrite <- app_comm_cons, parse_from_marker by done.
    rewrite parse_from_body, IH by done. done.
Qed.

Lemma records_record_lines recs :
  recs_ok recs →
  records (recs ≫= record_lines) = recs ∧
  well_marked (recs ≫= record_lines) = true.
Proof.
  intros Hok. unfold records, well_marked.
  by rewrite parse_from_record_lines.
Qed.

Lemma join_record_lines recs :
  join (recs ≫= record_lines) = render_all recs.
Proof.
  unfold render_all. induction recs as [|rec recs IH]; [done |].
  rewrite bind_cons, join_app, fmap_cons, join_cons, IH. f_equal.
  unfold record_lines, render. by rewrite join_cons, marker_line_app.
Qed.

Lemma recs_ok_lines recs : recs_ok recs → lines_ok (recs ≫= record_lines).
Proof.
  induction recs as [|rec recs IH]; intros Hok; [done |].
  rewrite bind_cons. destruct Hok as (Hc & Hb & H). unfold record_lines at 1.
  rewrite <- app_comm_cons. apply lines_ok_cons; [by apply marker_line_text |].
  destruct recs as [|rec' recs].
  - by rewrite app_nil_r.
  - destruct H as [Ht Hok]. apply lines_ok_app; [done | by apply IH].
Qed.

(** A file written from well-shaped records reads back as these records. *)
Lemma records_render_all recs :
  recs_ok recs →
  records (file_lines (render_all recs)) = recs ∧
  well_marked (file_lines (render_all recs)) = true.
Proof.
  intros Hok. rewrite <- join_record_lines.
  rewrite file_lines_join by by apply recs_ok_lines.
  by apply records_record_lines.
Qed.

(** ** The records of a text file are well shaped *)

Lemma recs_ok_cons c body recs :
  is_token c → body_ok body → Forall text_line body → recs_ok recs →
  recs_ok ((c, body) :: recs).
Proof.
  intros Hc Hb Ht Hok. simpl. split; [done |]. split; [done |].
  destruct recs; [by apply lines_ok_all | done].
Qed.

Lemma recs_ok_close cur buf recs :
  (∀ c, cur = Some c → is_token c) → body_ok buf → Forall text_line buf →
  recs_ok recs → recs_ok (close_record cur buf ++ recs).
Proof.
  intros Hc Hb Ht Hok. destruct cur as [c|]; [| done].
  apply recs_ok_cons; auto.
Qed.

Lemma parse_from_ok cur buf lines :
  (∀ c, cur = Some c → is_token c) → body_ok buf → lines_ok (buf ++ lines) →
  recs_ok (parse_from cur buf lines).1.
Proof.
  revert cur buf. induction lines as [|line rest IH]; intros cur buf Hc Hb Hok.
  - rewrite app_nil_r in Hok. simpl. destruct cur as [c|]; [| done].
    simpl. split; [by apply Hc |]. done.
  - rewrite parse_from_cons. destruct (startswith_gt line) eqn:Hs.
    + apply lines_ok_app_inv in Hok as [Ht Hok].
      assert (lines_ok rest) as Hrest.
      { simpl in Hok. destruct rest; [done | by destruct Hok]. }
      destruct (split (strip (drop1 line))) as [|tok toks] eqn:Hsp.
      * simpl. rewrite <- (app_nil_r (close_record cur buf)).
        by apply recs_ok_close.
      * simpl. apply recs_ok_close; [done .. |].
        apply IH; [| constructor | done].
        intros c [= <-]. pose proof (split_tokens (strip (drop1 line))) as Hf.
        rewrite Hsp in Hf. by apply Forall_cons in Hf as [? _].
    + apply IH; [done | |].
      * apply Forall_app. split; [done |]. by constructor.
      * by rewrite <- app_assoc.
Qed.

Lemma records_ok lines : lines_ok lines → recs_ok (records lines).
Proof. intros Hok. apply parse_from_ok; [done | constructor | done]. Qed.

Lemma recs_ok_all_text rec recs :
  recs_ok (rec :: recs) → recs ≠ [] → Forall text_line rec.2.
Proof. simpl. intros (_ & _ & H) Hne. destruct recs; [done | by destruct H]. Qed.

Lemma recs_ok_last rec : recs_ok [rec] → lines_ok rec.2.
Proof. simpl. by intros (_ & _ & H). Qed.

(** Leaving records out keeps the shape. *)
Lemma recs_ok_filter (P : string * list string → Prop) `{∀ r, Decision (P r)}
    recs :
  recs_ok recs → recs_ok (filter P recs).
Proof.
  induction recs as [|rec recs IH]; intros Hok; [done |].
  pose proof (recs_ok_inv _ _ Hok) as (Hc & Hb & Hrest).
  rewrite filter_cons. destruct (decide (P rec)); [| by apply IH].
  destruct rec as [c body]. destruct recs as [|rec' recs].
  - done.
  - apply recs_ok_cons; [done | done | | by apply IH].
    by apply (recs_ok_all_text _ _ Hok).
Qed.

Lemma bin_records_ok m b lines :
  lines_ok lines → recs_ok (bin_records m b (records lines)).
Proof. intros Hok. apply recs_ok_filter. by apply records_ok. Qed.

(** ** Blocks, lines before the first marker, markers without a token *)

Lemma parse_from_none_buf buf lines :
  parse_from None buf lines = parse_from None [] lines.
Proof.
  revert buf. induction lines as [|line rest IH]; intros buf; [done |].
  rewrite !parse_from_cons. destruct (startswith_gt line); [done |].
  by rewrite IH, (IH ([] ++ [line])).
Qed.

Lemma parse_from_blocks cur buf blocks :
  Forall block_ok blocks →
  parse_from cur buf (blocks ≫= block_lines) =
    (close_record cur buf ++ (block_record <$> blocks), true).
Proof.
  intros Hok. revert cur buf.
  induction Hok as [|[h body] blocks (Hs & [c Hc] & Hb) Hok IH]; intros cur buf.
  - by rewrite app_nil_r.
  - rewrite bind_cons, fmap_cons. unfold block_lines at 1, block_record at 1.
    cbn [fst snd] in *. rewrite Hc. unfold header_id in Hc.
    rewrite <- app_comm_cons, parse_from_cons, Hs.
    destruct (split (strip (drop1 h))) as [|tok toks]; [done |].
    injection Hc as ->. rewrite parse_from_body, IH by done. done.
Qed.

Lemma parse_preamble_blocks pre blocks :
  body_ok pre → Forall block_ok blocks →
  parse_from None [] (pre ++ blocks ≫= block_lines) =
    (block_record <$> blocks, true).
Proof.
  intros Hp Hb. rewrite parse_from_body, parse_from_none_buf by done.
  by rewrite parse_from_blocks.
Qed.

Lemma parse_from_bare cur buf lines :
  Exists bare_marker lines → (parse_from cur buf lines).2 = false.
Proof.
  intros Hex. revert cur buf.
  induction Hex as [line rest [Hs Hsp]|line rest Hex IH]; intros cur buf.
  - by rewrite parse_from_cons, Hs, Hsp.
  - rewrite parse_from_cons. destruct (startswith_gt line); [| by apply IH].
    destruct (split (strip (drop1 line))); [done |]. by apply IH.
Qed.

Lemma parse_from_marked cur buf lines :
  (parse_from cur buf lines).2 = false → Exists bare_marker lines.
Proof.
  revert cur buf. induction lines as [|line rest IH]; intros cur buf; [done |].
  rewrite parse_from_cons. destruct (startswith_gt line) eqn:Hs.
  - destruct (split (strip (drop1 line))) eqn:Hsp.
    + intros _. by left.
    + simpl. intros H. right. by eapply IH.
  - intros H. right. by eapply IH.
Qed.

(** ** Overwriting: old files never show through a written file *)

Lemma texts_for_nonempty b evs : b ∈ evs.*1 → texts_for b evs ≠ [].
Proof.
  induction evs as [|ev evs IH]; [by intros ?%elem_of_nil |].
  rewrite fmap_cons, texts_for_cons. intros [->|Hin]%elem_of_cons.
  - by rewrite decide_True by done.
  - destruct (decide (ev.1 = b)); [done | by apply IH].
Qed.

Lemma write_events_overlay fs evs :
  files (foldl write_event (init_io fs) evs) =
    files (foldl write_event (init_io ∅) evs) ∪ fs.
Proof.
  apply map_eq. intros f.
  destruct (decide (f ∈ fasta_name <$> evs.*1)) as [Hin|Hin].
  - apply list_elem_of_fmap in Hin as (b & -> & Hb).
    apply texts_for_nonempty in Hb.
    rewrite lookup_union, !write_events_file by apply handles_ok_init.
    unfold base_text, init_io. simpl. rewrite !lookup_empty.
    destruct (texts_for b evs); [done |]. simpl.
    by destruct (fs !! fasta_name b).
  - rewrite lookup_union, !write_events_other;
      [| apply handles_ok_init | | apply handles_ok_init |].
    + unfold init_io. simpl. rewrite lookup_empty. by destruct (fs !! f).
    + intros b Hb ->. apply Hin. apply list_elem_of_fmap. by exists b.
    + intros b Hb ->. apply Hin. apply list_elem_of_fmap. by exists b.
Qed.

Lemma final_io_overlay lines m outdir :
  files (final_io lines m outdir) = files (final_io lines m None) ∪ mkdir outdir.
Proof. apply write_events_overlay. Qed.

(** ** An empty dictionary *)

Lemma add_contig_not_nil b c d : add_contig b c d ≠ [].
Proof.
  destruct d as [|[k s] d]; [done |]. rewrite add_contig_cons.
  by destruct (decide (k = b)).
Qed.

Lemma load_rows_nil d lines :
  foldl load_row d lines = [] ↔
    d = [] ∧ ∀ line, line ∈ lines → row_pair line = None.
Proof.
  revert d. induction lines as [|line lines IH]; intros d.
  - simpl. split; [| by intros [? _]]. intros Hd. split; [done |].
    by intros ? ?%elem_of_nil.
  - rewrite foldl_unfold, IH, load_row_pair. split.
    + intros [Hd Hl]. destruct (row_pair line) as [[b c]|] eqn:Hr.
      * by apply add_contig_not_nil in Hd.
      * split; [done |]. intros l [->|?]%elem_of_cons; [done | by apply Hl].
    + intros [-> Hl]. rewrite (Hl line) by by left. split; [done |].
      intros l ?. apply Hl. by right.
Qed.

(** ** [main] *)

Lemma main_runs a w asm tsv :
  paths w !! assembly a = Some asm → paths w !! map a = Some tsv →
  load_bin_contig_map tsv ≠ [] →
  main a w =
    run_split w (split_fasta_by_bin asm (load_bin_contig_map tsv) (outdir w)).
Proof.
  intros Ha Hm Hne. unfold main. rewrite Ha, Hm.
  by destruct (load_bin_contig_map tsv).
Qed.

Lemma load_nil_no_rows tsv : load_bin_contig_map tsv = [] ↔ no_rows tsv.
Proof.
  unfold load_bin_contig_map, no_rows. rewrite load_rows_nil.
  split; [by intros [_ ?] | by intros ?].
Qed.

Lemma split_fasta_final asm m outdir :
  split_fasta_by_bin asm m outdir =
    ended (well_marked (file_lines asm)) (final_io (file_lines asm) m outdir).
Proof. apply split_lines_final. Qed.

Lemma io_of_split asm m outdir :
  io_of (split_fasta_by_bin asm m outdir) = final_io (file_lines asm) m outdir.
Proof.
  rewrite split_fasta_final. by destruct (well_marked (file_lines asm)).
Qed.

Lemma records_no_marker lines : body_ok lines → records lines = [].
Proof.
  intros Hb. unfold records. rewrite <- (app_nil_r lines).
  by rewrite parse_from_body.
Qed.

Lemma well_marked_no_marker lines : body_ok lines → well_marked lines = true.
Proof.
  intros Hb. unfold well_marked. rewrite <- (app_nil_r lines).
  by rewrite parse_from_body.
Qed.

(** ** Facts shared by the claims *)

Lemma read_lines_body idx r body :
  body_ok body →
  read_lines idx r body =
    Returned {| current_contig := current_contig r;
                seq_buffer := seq_buffer r ++ body; out := out r |}.
Proof.
  intros Hb. revert r. induction Hb as [|l body Hl Hb IH]; intros [cur buf st].
  - simpl. by rewrite app_nil_r.
  - simpl. unfold read_line. rewrite Hl, IH. simpl. by rewrite <- app_assoc.
Qed.

Lemma parse_preamble pre rest :
  body_ok pre → parse_from None [] (pre ++ rest) = parse_from None [] rest.
Proof. intros Hp. by rewrite parse_from_body, parse_from_none_buf. Qed.

Lemma render_all_app rs rs' : render_all (rs ++ rs') = render_all rs +:+ render_all rs'.
Proof. unfold render_all. by rewrite fmap_app, join_app. Qed.

Lemma render_all_cons rec rs : render_all (rec :: rs) = render rec +:+ render_all rs.
Proof. reflexivity. Qed.

Lemma render_all_around rs rec rs' :
  render_all (rs ++ rec :: rs') =
    render_all rs +:+ ">" +:+ rec.1 +:+ nl +:+ join rec.2 +:+ render_all rs'.
Proof.
  rewrite render_all_app, render_all_cons. unfold render.
  by rewrite !str_app_assoc.
Qed.

Lemma returned_final asm m dir st :
  split_fasta_by_bin asm m dir = Returned st →
  st = final_io (file_lines asm) m dir ∧ well_marked (file_lines asm) = true.
Proof.
  rewrite split_fasta_final. destruct (well_marked (file_lines asm)); [| done].
  by intros [= <-].
Qed.

Lemma bin_file_text asm m dir st b rs :
  NoDup m.*1 →
  split_fasta_by_bin asm m dir = Returned st →
  bin_records m b (records (file_lines asm)) = rs → rs ≠ [] →
  files st !! fasta_name b = Some (render_all rs) ∧
  records (file_lines (render_all rs)) = rs.
Proof.
  intros Hnd [-> _]%returned_final <- Hne. split.
  - rewrite final_io_bin_file by done.
    by destruct (bin_records m b (records (file_lines asm))).
  - apply records_render_all, bin_records_ok, file_lines_ok.
Qed.

Lemma ex_map_loaded : load_bin_contig_map ex_map = ex_bin2contigs.
Proof. by vm_compute. Qed.

Lemma flush_blocks idx st blocks :
  Forall block_ok blocks →
  foldl (flush_record idx) st (block_record <$> blocks) =
    foldl (λ st blk, flush idx (header_id blk.1) blk.2 st) st blocks.
Proof.
  intros Hok. revert st.
  induction Hok as [|blk blocks (_ & [c Hc] & _) Hok IH]; intros st; [done |].
  rewrite fmap_cons, !foldl_unfold, IH. unfold flush_record, block_record.
  by rewrite Hc.
Qed.

Lemma ex_bin2contigs_NoDup : NoDup ex_bin2contigs.*1.
Proof. refine (bool_decide_unpack _ _). by vm_compute. Qed.

Lemma filter_filter_swap {A} (P Q : A → Prop)
    `{!∀ x, Decision (P x)} `{!∀ x, Decision (Q x)} (l : list A) :
  filter P (filter Q l) = filter Q (filter P l).
Proof.
  induction l as [|x l IH]; [done |].
  rewrite !(filter_cons _ x).
  destruct (decide (Q x)), (decide (P x));
    rewrite ?filter_cons, ?decide_True, ?decide_False by done;
    by rewrite IH.
Qed.

Lemma owners_keys m b c : b ∈ owners c m → b ∈ m.*1.
Proof.
  intros (s & Hin & _)%elem_of_owners.
  apply list_elem_of_fmap. by exists (b, s).
Qed.

Lemma bin_records_keys m b recs : bin_records m b recs ≠ [] → b ∈ m.*1.
Proof.
  induction recs as [|rec recs IH]; [done |].
  rewrite bin_records_cons.
  destruct (decide (b ∈ owners rec.1 m)) as [Hin|_]; [| done].
  intros _. by eapply owners_keys.
Qed.

Lemma ex_owners :
  owners "c1" ex_bin2contigs = ["A"] ∧ owners "c2" ex_bin2contigs = ["A"; "B"]
  ∧ owners "c3" ex_bin2contigs = [].
Proof. by vm_compute. Qed.

(** ** Fields of a line, by position *)

Lemma all_space_cons a w :
  all_space (String a w) = true → is_space a = true ∧ all_space w = true.
Proof. intros H. by apply andb_true_iff in H. Qed.

Lemma split_from_all_space w s :
  all_space w = true → split_from "" (w +:+ s) = split_from "" s.
Proof.
  induction w as [|a w IH]; [done |].
  intros [Ha Hw]%all_space_cons.
  rewrite str_app_cons, split_from_cons, Ha, decide_True by done. by apply IH.
Qed.

Lemma split_from_field t rest :
  is_token t → field_end rest →
  split_from "" (t +:+ rest) = t :: split_from "" (drop1 rest).
Proof.
  intros [Hne Ht] Hrest. rewrite split_from_no_space, str_app_nil_l by done.
  destruct Hrest as [->|(a & rest' & -> & Ha)].
  - rewrite split_from_nil. by rewrite decide_False by done.
  - rewrite split_from_cons, Ha. by rewrite decide_False by done.
Qed.

Lemma field_end_space w s :
  all_space w = true → w ≠ "" → field_end (w +:+ s).
Proof.
  destruct w as [|a w]; [done |]. intros [Ha _]%all_space_cons _.
  right. by exists a, (w +:+ s).
Qed.

Lemma drop1_space_app w s :
  all_space w = true → w ≠ "" →
  split_from "" (drop1 (w +:+ s)) = split_from "" s.
Proof.
  destruct w as [|a w]; [done |]. intros [_ Hw]%all_space_cons _.
  rewrite str_app_cons. simpl. by apply split_from_all_space.
Qed.

(** Two fields, wherever they stand on the line, are the pair of the row. *)
Lemma row_pair_fields w0 b w1 c rest :
  all_space w0 = true → is_token b → all_space w1 = true → w1 ≠ "" →
  is_token c → field_end rest →
  row_pair (w0 +:+ b +:+ w1 +:+ c +:+ rest) = Some (b, c).
Proof.
  intros Hw0 Hb Hw1 Hne Hc Hrest. unfold row_pair, split.
  rewrite split_from_all_space by done.
  rewrite (split_from_field b) by (done || by apply field_end_space).
  rewrite drop1_space_app by done.
  by rewrite (split_from_field c) by done.
Qed.

(** A line with one field or none is no row. *)
Lemma row_pair_short w0 b w1 :
  all_space w0 = true → is_token b → all_space w1 = true →
  row_pair w0 = None ∧ row_pair (w0 +:+ b +:+ w1) = None.
Proof.
  intros Hw0 Hb Hw1. unfold row_pair, split. split.
  - rewrite <- (str_app_nil_r w0), split_from_all_space by done. done.
  - rewrite split_from_all_space by done.
    destruct w1 as [|a w1].
    + rewrite (split_from_field b "") by (done || by left). done.
    + apply all_space_cons in Hw1 as [Ha Hw1].
      rewrite (split_from_field b) by (done || (right; by exists a, w1)).
      simpl drop1. rewrite <- (str_app_nil_r w1).
      by rewrite split_from_all_space by done.
Qed.

(** ** Spelled-out texts *)

Lemma render_all_one r : render_all [r] = ">" +:+ r.1 +:+ nl +:+ join r.2.
Proof. unfold render_all, render. simpl. by rewrite str_app_nil_r. Qed.

Lemma render_all_two r1 r2 :
  render_all [r1; r2] =
    ">" +:+ r1.1 +:+ nl +:+ join r1.2 +:+ ">" +:+ r2.1 +:+ nl +:+ join r2.2.
Proof.
  change [r1; r2] with ([] ++ r1 :: [r2]).
  rewrite render_all_around, render_all_one. done.
Qed.

Lemma ex_bin2contigs_plain : plain_bins ex_bin2contigs.
Proof. refine (bool_decide_unpack _ _). by vm_compute. Qed.

Lemma filter_all {A} (P : A → Prop) `{!∀ x, Decision (P x)} (l : list A) :
  (∀ x, x ∈ l → P x) → filter P l = l.
Proof.
  induction l as [|x l IH]; intros Hl; [done |].
  rewrite filter_cons, decide_True by (apply Hl; by left).
  rewrite IH; [done |]. intros y Hy. apply Hl. by right.
Qed.

(** * The claims *)

(** C1, amended: for bins that name plain files and a run that returns,
    the file of every bin mapped to an identifier holds one record with the
    identifier for each record with it in the sequence file, in the same
    order and with the same body lines: exactly one when the sequence file
    holds exactly one.  Each is written as the marker character, the
    identifier alone and a newline, then the body lines as they were read. *)
Theorem C1_record_per_occurrence asm m dir st b c occs :
  plain_bins m → NoDup m.*1 → maps_to m b c →
  split_fasta_by_bin asm m dir = Returned st →
  filter (λ rec, rec.1 = c) (records (file_lines asm)) = occs → occs ≠ [] →
  ∃ text,
    files st !! fasta_name b = Some text
    ∧ filter (λ rec, rec.1 = c) (records (file_lines text)) = occs
    ∧ ∀ body, (c, body) ∈ occs →
        ∃ before after,
          text = before +:+ ">" +:+ c +:+ nl +:+ join body +:+ after.
Proof.
  intros _ Hnd Hmap Hret Hoccs Hne.
  set (rs := bin_records m b (records (file_lines asm))).
  assert (filter (λ rec, rec.1 = c) rs = occs) as Hrs.
  { unfold rs, bin_records. rewrite filter_filter_swap, Hoccs.
    apply filter_all. intros rec Hrec. rewrite <- Hoccs in Hrec.
    apply list_elem_of_filter in Hrec as [-> _]. by apply elem_of_owners. }
  assert (rs ≠ []) as Hrne.
  { intros He. rewrite He in Hrs. by rewrite <- Hrs in Hne. }
  destruct (bin_file_text asm m dir st b rs Hnd Hret eq_refl Hrne) as [Hf Hr].
  exists (render_all rs). split; [done |]. split; [by rewrite Hr |].
  intros body Hin. rewrite <- Hrs in Hin.
  apply list_elem_of_filter in Hin as [_ Hin].
  apply list_elem_of_split in Hin as (l1 & l2 & ->).
  exists (render_all l1), (render_all l2). by rewrite render_all_around.
Qed.

Lemma C1_record_per_occurrence_witness :
  (∃ text,
     files (final_io (file_lines ex_fasta) ex_bin2contigs None)
       !! fasta_name "A" = Some text
     ∧ filter (λ rec, rec.1 = "c2") (records (file_lines text))
       = [("c2", ["GG" +:+ nl; "TT" +:+ nl])]
     ∧ ∀ body, ("c2", body) ∈ [("c2", ["GG" +:+ nl; "TT" +:+ nl])] →
         ∃ before after,
           text = before +:+ ">" +:+ "c2" +:+ nl +:+ join body +:+ after)
  ∧ files (final_io (file_lines ex_fasta) ex_bin2contigs None) !! "A.fasta"
    = Some (">c1" +:+ nl +:+ "ACGT" +:+ nl +:+ ">c2" +:+ nl +:+ "GG" +:+ nl
            +:+ "TT" +:+ nl)
  ∧ records (file_lines (">c1" +:+ nl +:+ "ACGT" +:+ nl +:+ ">c2" +:+ nl
                         +:+ "GG" +:+ nl +:+ "TT" +:+ nl))
    = [("c1", ["ACGT" +:+ nl]); ("c2", ["GG" +:+ nl; "TT" +:+ nl])].
Proof.
  split; [| split; by vm_compute].
  apply (C1_record_per_occurrence ex_fasta ex_bin2contigs None
           (final_io (file_lines ex_fasta) ex_bin2contigs None) "A" "c2"
           [("c2", ["GG" +:+ nl; "TT" +:+ nl])]).
  - exact ex_bin2contigs_plain.
  - exact ex_bin2contigs_NoDup.
  - exists {["c1"; "c2"]}. split; [by left | by vm_compute].
  - by vm_compute.
  - by vm_compute.
  - done.
Defined.

(** C1, as stated, fails: with the identifier on two marker lines of the
    sequence file, the file of the bin holds two records with it. *)
Lemma C1_counterexample :
  ∃ st text,
    split_fasta_by_bin ex_fasta_dup ex_bin2contigs None = Returned st
    ∧ maps_to ex_bin2contigs "A" "c1"
    ∧ "c1" ∈ (records (file_lines ex_fasta_dup)).*1
    ∧ files st !! fasta_name "A" = Some text
    ∧ filter (λ rec, rec.1 = "c1") (records (file_lines text)) =
        [("c1", ["AC" +:+ nl]); ("c1", ["GG" +:+ nl])]
    ∧ ¬ ∃ rec, filter (λ rec, rec.1 = "c1") (records (file_lines text)) = [rec].
Proof.
  exists (final_io (file_lines ex_fasta_dup) ex_bin2contigs None).
  exists (">c1" +:+ nl +:+ "AC" +:+ nl +:+ ">c1" +:+ nl +:+ "GG" +:+ nl).
  split; [by vm_compute |]. split.
  { exists {["c1"; "c2"]}. split; [by left | by vm_compute]. }
  split; [by left |]. split; [by vm_compute |]. split; [by vm_compute |].
  intros [rec Hrec]. vm_compute in Hrec. discriminate Hrec.
Qed.

(** C2: with the mapping file of the example and a sequence file made of
    the records c1, c2 and c3 in this order, the run ends with status zero;
    A.fasta holds the records c1 and c2, B.fasta holds the record c2, and no
    other file is created or changed: c3 is written nowhere and there is no
    C.fasta. *)
Theorem C2_spec_example a w asm b1 b2 b3 :
  paths w !! assembly a = Some asm → paths w !! map a = Some ex_map →
  file_lines asm = [b1; b2; b3] ≫= block_lines →
  Forall block_ok [b1; b2; b3] →
  header_id b1.1 = Some "c1" → header_id b2.1 = Some "c2" →
  header_id b3.1 = Some "c3" →
  main a w =
    (Exit0,
     {| paths := paths w;
        outdir :=
          Some ({[ "A.fasta" := ">c1" +:+ nl +:+ join b1.2
                                +:+ ">c2" +:+ nl +:+ join b2.2;
                   "B.fasta" := ">c2" +:+ nl +:+ join b2.2 ]}
                ∪ mkdir (outdir w)) |}).
Proof.
  intros Ha Hm Hlines Hok H1 H2 H3.
  change (">c1" +:+ nl +:+ join b1.2 +:+ ">c2" +:+ nl +:+ join b2.2)
    with (">" +:+ ("c1", b1.2).1 +:+ nl +:+ join ("c1", b1.2).2
          +:+ ">" +:+ ("c2", b2.2).1 +:+ nl +:+ join ("c2", b2.2).2).
  change (">c2" +:+ nl +:+ join b2.2)
    with (">" +:+ ("c2", b2.2).1 +:+ nl +:+ join ("c2", b2.2).2).
  rewrite <- render_all_two, <- render_all_one.
  assert (load_bin_contig_map ex_map ≠ []) as Hne by by rewrite ex_map_loaded.
  rewrite (main_runs a w asm ex_map Ha Hm Hne), split_fasta_final, Hlines.
  rewrite ex_map_loaded.
  pose proof (parse_preamble_blocks [] [b1; b2; b3] (Forall_nil_2 _) Hok) as Hp.
  rewrite app_nil_l in Hp. remember ([b1; b2; b3] ≫= block_lines) as lines.
  assert (records lines = [("c1", b1.2); ("c2", b2.2); ("c3", b3.2)]) as Hrecs.
  { unfold records. rewrite Hp. simpl. unfold block_record.
    by rewrite H1, H2, H3. }
  assert (well_marked lines = true) as -> by (unfold well_marked; by rewrite Hp).
  unfold ended, run_split. f_equal. f_equal. f_equal.
  rewrite final_io_overlay. f_equal.
  destruct ex_owners as (Ho1 & Ho2 & Ho3).
  assert (∀ b, bin_records ex_bin2contigs b
                 [("c1", b1.2); ("c2", b2.2); ("c3", b3.2)] =
               if decide (b = "A") then [("c1", b1.2); ("c2", b2.2)]
               else if decide (b = "B") then [("c2", b2.2)] else []) as Hbin.
  { intros b. rewrite !bin_records_cons. cbn [fst]. rewrite Ho1, Ho2, Ho3.
    unfold bin_records. rewrite filter_nil.
    destruct (decide (b = "A")) as [->|HA].
    - by vm_compute.
    - destruct (decide (b = "B")) as [->|HB]; [by vm_compute |].
      rewrite !decide_False; [done | ..]; intros Hin;
        repeat (apply elem_of_cons in Hin as [?|Hin]; [done |]);
        by apply elem_of_nil in Hin. }
  apply map_eq. intros f.
  destruct (decide (f = fasta_name "A")) as [->|HfA].
  - rewrite final_io_bin_file, Hrecs, Hbin by apply ex_bin2contigs_NoDup.
    rewrite decide_True by done. by rewrite lookup_insert_eq.
  - destruct (decide (f = fasta_name "B")) as [->|HfB].
    + rewrite final_io_bin_file, Hrecs, Hbin by apply ex_bin2contigs_NoDup.
      rewrite decide_False by done. rewrite decide_True by done.
      rewrite lookup_insert_ne by done. by rewrite lookup_singleton_eq.
    + rewrite final_io_other_file.
      * rewrite lookup_insert_ne by done. by rewrite lookup_singleton_ne.
      * intros b Hb ->. apply bin_records_keys in Hb.
        apply elem_of_cons in Hb as [->|Hb]; [done |].
        apply elem_of_cons in Hb as [->|Hb]; [done |].
        by apply elem_of_nil in Hb.
Qed.

Lemma C2_spec_example_witness :
  main ex_args ex_world =
    (Exit0,
     {| paths := paths ex_world;
        outdir :=
          Some {[ "A.fasta" := ">c1" +:+ nl +:+ "ACGT" +:+ nl +:+ ">c2" +:+ nl
                               +:+ "GG" +:+ nl +:+ "TT" +:+ nl;
                  "B.fasta" := ">c2" +:+ nl +:+ "GG" +:+ nl +:+ "TT" +:+ nl ]} |}).
Proof.
  pose proof (C2_spec_example ex_args ex_world ex_fasta
           (">c1 len=4" +:+ nl, ["ACGT" +:+ nl])
           (">c2" +:+ nl, ["GG" +:+ nl; "TT" +:+ nl])
           (">c3" +:+ nl, ["CCC" +:+ nl])) as H.
  rewrite H.
  - by vm_compute.
  - by vm_compute.
  - by vm_compute.
  - by vm_compute.
  - repeat constructor; vm_compute; eauto.
  - by vm_compute.
  - by vm_compute.
  - by vm_compute.
Defined.

(** C3: for bins that name plain files and a sequence file made of blocks,
    the splitter returns the state reached by one flush per block, in file
    order, each with the identifier and the body of its own block, whether
    or not identifiers repeat; the file of a bin then holds one record for
    every block the bin owns, and reads back as these records. *)
Theorem C3_each_occurrence_flushed asm pre blocks m dir :
  plain_bins m →
  file_lines asm = pre ++ blocks ≫= block_lines →
  body_ok pre → Forall block_ok blocks → NoDup m.*1 →
  let st :=
    foldl (λ st blk, flush (invert m) (header_id blk.1) blk.2 st)
      (init_io (mkdir dir)) blocks in
  split_fasta_by_bin asm m dir = Returned st
  ∧ ∀ b,
      match bin_records m b (block_record <$> blocks) with
      | [] => files st !! fasta_name b = dir ≫= (.!! fasta_name b)
      | rs => files st !! fasta_name b = Some (render_all rs)
              ∧ records (file_lines (render_all rs)) = rs
      end.
Proof.
  intros _ Hlines Hp Hb Hnd. simpl.
  assert (records (file_lines asm) = block_record <$> blocks)
    as Hrecs by (unfold records; by rewrite Hlines, parse_preamble_blocks).
  assert (foldl (λ st blk, flush (invert m) (header_id blk.1) blk.2 st)
            (init_io (mkdir dir)) blocks
          = final_io (file_lines asm) m dir) as ->.
  { unfold final_io. rewrite <- flush_records_events, Hrecs.
    by rewrite flush_blocks. }
  split.
  - rewrite split_fasta_final. unfold well_marked.
    by rewrite Hlines, parse_preamble_blocks.
  - intros b. rewrite final_io_bin_file by done.
    pose proof (bin_records_ok m b (file_lines asm) (file_lines_ok asm)) as Hok.
    rewrite Hrecs in *.
    destruct (bin_records m b (block_record <$> blocks)) as [|r rs] eqn:Hrs;
      [by destruct dir |].
    split; [done |]. by destruct (records_render_all _ Hok).
Qed.

Lemma C3_each_occurrence_flushed_witness :
  (∃ st,
     split_fasta_by_bin ex_fasta_dup ex_bin2contigs None = Returned st
     ∧ match bin_records ex_bin2contigs "A" (block_record <$> ex_blocks_dup) with
       | [] => files st !! fasta_name "A" = None
       | rs => files st !! fasta_name "A" = Some (render_all rs)
               ∧ records (file_lines (render_all rs)) = rs
       end)
  ∧ files (io_of (split_fasta_by_bin ex_fasta_dup ex_bin2contigs None))
      !! "A.fasta"
    = Some (">c1" +:+ nl +:+ "AC" +:+ nl +:+ ">c1" +:+ nl +:+ "GG" +:+ nl)
  ∧ block_record <$> ex_blocks_dup
    = [("c1", ["AC" +:+ nl]); ("c1", ["GG" +:+ nl])].
Proof.
  split; [| split; by vm_compute].
  assert (file_lines ex_fasta_dup = [] ++ ex_blocks_dup ≫= block_lines) as H0
    by by vm_compute.
  assert (body_ok []) as H1 by constructor.
  assert (Forall block_ok ex_blocks_dup) as H2.
  { repeat constructor; vm_compute; eauto. }
  destruct (C3_each_occurrence_flushed ex_fasta_dup [] ex_blocks_dup
              ex_bin2contigs None ex_bin2contigs_plain H0 H1 H2
              ex_bin2contigs_NoDup) as [Hret Hfiles].
  eexists. split; [exact Hret | exact (Hfiles "A")].
Defined.

(** C4: when the sequence file holds a marker line with no token after the
    marker, the splitter raises [IndexError] at that line, the exception is
    not caught, and [main] ends with a status that is not zero. *)
Theorem C4_bare_marker_raises a w asm tsv :
  paths w !! assembly a = Some asm → paths w !! map a = Some tsv →
  load_bin_contig_map tsv ≠ [] →
  Exists bare_marker (file_lines asm) →
  ∃ st,
    split_fasta_by_bin asm (load_bin_contig_map tsv) (outdir w)
      = Raised IndexError st
    ∧ main a w =
        (Uncaught IndexError, {| paths := paths w; outdir := Some (files st) |})
    ∧ exit_code (main a w).1 ≠ 0%Z.
Proof.
  intros Ha Hm Hne Hbare.
  rewrite (main_runs a w asm tsv Ha Hm Hne), split_fasta_final.
  unfold well_marked. rewrite parse_from_bare by done.
  eexists. split; [done |]. split; done.
Qed.

Lemma C4_bare_marker_raises_witness :
  bare_marker ">" ∧ bare_marker ("> " +:+ nl) ∧
  ∃ st,
    split_fasta_by_bin ex_fasta_bare (load_bin_contig_map ex_map) None
      = Raised IndexError st
    ∧ main ex_args (world_of ex_fasta_bare ex_map None) =
        (Uncaught IndexError,
         {| paths := paths (world_of ex_fasta_bare ex_map None);
            outdir := Some (files st) |})
    ∧ exit_code (main ex_args (world_of ex_fasta_bare ex_map None)).1 ≠ 0%Z.
Proof.
  split; [by vm_compute |]. split; [by vm_compute |].
  apply (C4_bare_marker_raises ex_args (world_of ex_fasta_bare ex_map None)
           ex_fasta_bare ex_map).
  - by vm_compute.
  - by vm_compute.
  - by rewrite ex_map_loaded.
  - apply Exists_cons_tl, Exists_cons_tl, Exists_cons_hd. by vm_compute.
Defined.

(** C5: [main] ends through [sys.exit], with a message and a status that is
    not zero and with nothing read or written, exactly when the assembly
    path is missing, or the mapping path is missing, or the mapping file
    holds no valid row; otherwise it runs the splitter, and ends with status
    zero when the splitter returns. *)
Theorem C5_fatal_exits a w :
  ((∃ f, (main a w).1 = SysExit f) ↔
     paths w !! assembly a = None ∨ paths w !! map a = None ∨
     ∃ tsv, paths w !! map a = Some tsv ∧ no_rows tsv)
  ∧ (∀ f, (main a w).1 = SysExit f →
       (main a w).2 = w ∧ exit_code (main a w).1 ≠ 0%Z)
  ∧ ((∀ f, (main a w).1 ≠ SysExit f) →
       ∃ asm tsv,
         paths w !! assembly a = Some asm ∧ paths w !! map a = Some tsv ∧
         main a w =
           run_split w
             (split_fasta_by_bin asm (load_bin_contig_map tsv) (outdir w)))
  ∧ (∀ asm tsv st,
       paths w !! assembly a = Some asm → paths w !! map a = Some tsv →
       ¬ no_rows tsv →
       split_fasta_by_bin asm (load_bin_contig_map tsv) (outdir w) = Returned st →
       (main a w).1 = Exit0 ∧ exit_code (main a w).1 = 0%Z).
Proof.
  destruct (paths w !! assembly a) as [asm|] eqn:Ha;
    [destruct (paths w !! map a) as [tsv|] eqn:Hm;
      [destruct (decide (load_bin_contig_map tsv = [])) as [He|He] |] |].
  - (* no valid row *)
    assert (main a w = (SysExit NoMappings, w)) as Hmain.
    { unfold main. by rewrite Ha, Hm, He. }
    rewrite Hmain. simpl. split; [| split; [| split]].
    + split; [| by eexists]. intros _. right. right. exists tsv.
      split; [done |]. by apply load_nil_no_rows.
    + done.
    + intros Hn. by destruct (Hn NoMappings).
    + intros asm' tsv' st _ [= <-] Hrows. by apply load_nil_no_rows in He.
  - (* the splitter runs *)
    rewrite (main_runs a w asm tsv Ha Hm He). split; [| split; [| split]].
    + split.
      * intros [f Hf].
        by destruct (split_fasta_by_bin asm (load_bin_contig_map tsv) (outdir w)).
      * intros [?|[?|(tsv' & [= <-] & Hrows)]]; [done | done |].
        by apply load_nil_no_rows in Hrows.
    + intros f Hf.
      by destruct (split_fasta_by_bin asm (load_bin_contig_map tsv) (outdir w)).
    + intros _. by exists asm, tsv.
    + intros asm' tsv' st [= <-] [= <-] _ ->. done.
  - (* the mapping file is missing *)
    assert (main a w = (SysExit (MappingNotFound (map a)), w)) as Hmain.
    { unfold main. by rewrite Ha, Hm. }
    rewrite Hmain. simpl. split; [| split; [| split]].
    + split; [| by eexists]. intros _. right. by left.
    + done.
    + intros Hn. by destruct (Hn (MappingNotFound (map a))).
    + by intros asm' tsv' st _ [=].
  - (* the assembly is missing *)
    assert (main a w = (SysExit (AssemblyNotFound (assembly a)), w)) as Hmain.
    { unfold main. by rewrite Ha. }
    rewrite Hmain. simpl. split; [| split; [| split]].
    + split; [| by eexists]. intros _. by left.
    + done.
    + intros Hn. by destruct (Hn (AssemblyNotFound (assembly a))).
    + by intros asm' tsv' st [=].
Qed.

(** C6: the loader discards the first line of the mapping file whatever it
    holds; every later line is split on whitespace and stands for the pair
    (first field, second field) when it has two fields or more, and for
    nothing otherwise; each bin is one entry of the dictionary, its contigs
    are a set, and a repeated row changes nothing.  The fields are told by
    position: a line made of whitespace, a field, whitespace, a field, and
    then nothing or whitespace and anything, is the row of the two fields; a
    line with one field or none is no row. *)
Theorem C6_loader_rows tsv :
  let m := load_bin_contig_map tsv in
  (∀ b c, maps_to m b c ↔
     ∃ line, line ∈ tail (file_lines tsv) ∧ row_pair line = Some (b, c))
  ∧ (∀ tsv', tail (file_lines tsv') = tail (file_lines tsv) →
       load_bin_contig_map tsv' = m)
  ∧ NoDup m.*1
  ∧ (∀ d line, load_row (load_row d line) line = load_row d line)
  ∧ (∀ w0 b w1 c rest,
       all_space w0 = true → is_token b → all_space w1 = true → w1 ≠ "" →
       is_token c → field_end rest →
       row_pair (w0 +:+ b +:+ w1 +:+ c +:+ rest) = Some (b, c))
  ∧ (∀ w0 b w1,
       all_space w0 = true → is_token b → all_space w1 = true →
       row_pair w0 = None ∧ row_pair (w0 +:+ b +:+ w1) = None).
Proof.
  simpl. split; [| split; [| split; [| split; [| split]]]];
    [| | | | apply row_pair_fields | apply row_pair_short].
  - intros b c. unfold load_bin_contig_map. rewrite load_rows_maps_to.
    split; [| by right]. intros [(s & Hin & _)|?]; [| done].
    by apply elem_of_nil in Hin.
  - intros tsv' Ht. unfold load_bin_contig_map. by rewrite Ht.
  - apply load_NoDup.
  - intros d line. rewrite !load_row_pair.
    destruct (row_pair line) as [[b c]|]; [| done].
    induction d as [|[k s] d IH].
    + simpl. rewrite decide_True by done. f_equal. f_equal.
      by rewrite (idemp_L (∪)).
    + rewrite add_contig_cons. destruct (decide (k = b)) as [->|Hne].
      * rewrite add_contig_cons, decide_True by done. f_equal. f_equal.
        by rewrite (assoc_L (∪)), (idemp_L (∪)).
      * rewrite add_contig_cons, decide_False by done. by rewrite IH.
Qed.

Lemma C6_loader_rows_witness :
  maps_to (load_bin_contig_map ex_map_rowlike) "A" "c1"
  ∧ ¬ maps_to (load_bin_contig_map ex_map_rowlike) "A" "c9"
  ∧ load_bin_contig_map ex_map_rowlike = [("A", {["c1"]})]
  ∧ tail (file_lines ex_map_rowlike) =
      ["A c1 extra" +:+ nl; "lonely" +:+ nl; nl; "A" +:+ tab +:+ "c1" +:+ nl]
  ∧ row_pair ("A c1 extra" +:+ nl) = Some ("A", "c1")
  ∧ row_pair ("lonely" +:+ nl) = None ∧ row_pair nl = None.
Proof.
  pose proof (C6_loader_rows ex_map_rowlike) as (Hrows & _).
  split; [| split; [| by vm_compute]].
  - apply Hrows. exists ("A c1 extra" +:+ nl). split; [by left | by vm_compute].
  - intros (line & Hin & Hr)%Hrows.
    assert (tail (file_lines ex_map_rowlike) =
      ["A c1 extra" +:+ nl; "lonely" +:+ nl; nl; "A" +:+ tab +:+ "c1" +:+ nl])
      as Ht by by vm_compute.
    rewrite Ht in Hin.
    repeat (apply elem_of_cons in Hin as [->|Hin]; [by vm_compute in Hr |]).
    by apply elem_of_nil in Hin.
Defined.

(** C7: a second run on the same inputs into the directory the first run
    left gives the same status and the same files; the status depends on
    the inputs only, and the files a run leaves are the files it leaves in a
    fresh directory, laid over the files that were there: a written file is
    truncated, never appended to.  The one unspecified order in the program,
    the iteration order of the sets, does not change the index. *)
Theorem C7_rerun_idempotent a w :
  main a (main a w).2 = main a w
  ∧ (main a (fresh w)).1 = (main a w).1
  ∧ ((∀ f, (main a w).1 ≠ SysExit f) →
       outdir (main a w).2 =
         Some (mkdir (outdir (main a (fresh w)).2) ∪ mkdir (outdir w)))
  ∧ (∀ iter m, set_order iter → invert_in iter m = invert m).
Proof.
  cut (main a (main a w).2 = main a w
       ∧ (main a (fresh w)).1 = (main a w).1
       ∧ ((∀ f, (main a w).1 ≠ SysExit f) →
            outdir (main a w).2 =
              Some (mkdir (outdir (main a (fresh w)).2) ∪ mkdir (outdir w)))).
  { intros (? & ? & ?). repeat split; try done.
    intros iter m. apply invert_any_order. }
  destruct (paths w !! assembly a) as [asm|] eqn:Ha;
    [destruct (paths w !! map a) as [tsv|] eqn:Hm;
      [destruct (decide (load_bin_contig_map tsv = [])) as [He|He] |] |].
  - assert (∀ w', paths w' = paths w → main a w' = (SysExit NoMappings, w'))
      as Hmain.
    { intros w' Hw. unfold main. by rewrite Hw, Ha, Hm, He. }
    rewrite (Hmain w), (Hmain (fresh w)) by done. simpl.
    rewrite (Hmain w) by done. split; [done |]. split; [done |].
    intros Hn. by destruct (Hn NoMappings).
  - assert (∀ w', paths w' = paths w →
      main a w' = run_split w'
        (ended (well_marked (file_lines asm))
           (final_io (file_lines asm) (load_bin_contig_map tsv) (outdir w'))))
      as Hmain.
    { intros w' Hw. rewrite (main_runs a w' asm tsv), split_fasta_final;
        [done | by rewrite Hw | by rewrite Hw | done]. }
    set (m := load_bin_contig_map tsv) in *. set (lines := file_lines asm) in *.
    assert (∀ fs, files (final_io lines m (Some (files (final_io lines m fs))))
                  = files (final_io lines m fs)) as Hidem.
    { intros fs. rewrite (final_io_overlay lines m (Some _)). simpl.
      rewrite (final_io_overlay lines m fs).
      by rewrite (assoc_L (∪)), (idemp_L (∪)). }
    revert Hmain. destruct (well_marked lines); intros Hmain.
    + rewrite (Hmain w), (Hmain (fresh w)) by done. simpl.
      rewrite Hmain by done. simpl. rewrite Hidem.
      split; [done |]. split; [done |].
      intros _. by rewrite (final_io_overlay lines m (outdir w)).
    + rewrite (Hmain w), (Hmain (fresh w)) by done. simpl.
      rewrite Hmain by done. simpl. rewrite Hidem.
      split; [done |]. split; [done |].
      intros _. by rewrite (final_io_overlay lines m (outdir w)).
  - assert (∀ w', paths w' = paths w →
      main a w' = (SysExit (MappingNotFound (map a)), w')) as Hmain.
    { intros w' Hw. unfold main. by rewrite Hw, Ha, Hm. }
    rewrite (Hmain w), (Hmain (fresh w)) by done. simpl.
    rewrite (Hmain w) by done. split; [done |]. split; [done |].
    intros Hn. by destruct (Hn (MappingNotFound (map a))).
  - assert (∀ w', paths w' = paths w →
      main a w' = (SysExit (AssemblyNotFound (assembly a)), w')) as Hmain.
    { intros w' Hw. unfold main. by rewrite Hw, Ha. }
    rewrite (Hmain w), (Hmain (fresh w)) by done. simpl.
    rewrite (Hmain w) by done. split; [done |]. split; [done |].
    intros Hn. by destruct (Hn (AssemblyNotFound (assembly a))).
Qed.

(** C8: for bins that name plain files, when the splitter returns, the
    file of every bin that owns a record of the sequence file holds exactly
    the records the bin owns, in the order of the sequence file, and reads
    back as these records; the file of a bin that owns none is left as it
    was; and every record is in the file of each of its owning bins in full,
    marker line and body. *)
Theorem C8_bin_file_contents asm m dir st :
  plain_bins m → NoDup m.*1 →
  split_fasta_by_bin asm m dir = Returned st →
  (∀ b,
     match bin_records m b (records (file_lines asm)) with
     | [] => files st !! fasta_name b = dir ≫= (.!! fasta_name b)
     | rs => files st !! fasta_name b = Some (render_all rs) ∧
             records (file_lines (render_all rs)) = rs
     end)
  ∧ (∀ rec b,
       rec ∈ records (file_lines asm) → maps_to m b rec.1 →
       ∃ before after,
         files st !! fasta_name b =
           Some (before +:+ ">" +:+ rec.1 +:+ nl +:+ join rec.2 +:+ after)).
Proof.
  intros _ Hnd Hret. split.
  - intros b. destruct (bin_records m b (records (file_lines asm))) eqn:Hrs.
    + apply returned_final in Hret as [-> _].
      rewrite final_io_bin_file, Hrs by done. by destruct dir.
    + by eapply bin_file_text.
  - intros rec b Hrec Hmap.
    assert (rec ∈ bin_records m b (records (file_lines asm))) as Hin.
    { apply list_elem_of_filter. split; [by apply elem_of_owners | done]. }
    apply list_elem_of_split in Hin as (before & after & Hrs).
    exists (render_all before), (render_all after).
    rewrite <- render_all_around.
    eapply bin_file_text; [done .. |]. by destruct before.
Qed.

Lemma C8_bin_file_contents_witness :
  (∃ st,
     split_fasta_by_bin ex_fasta ex_bin2contigs None = Returned st
     ∧ (∀ b,
          match bin_records ex_bin2contigs b (records (file_lines ex_fasta)) with
          | [] => files st !! fasta_name b = None
          | rs => files st !! fasta_name b = Some (render_all rs) ∧
                  records (file_lines (render_all rs)) = rs
          end))
  ∧ records (file_lines ex_fasta) =
      [("c1", ["ACGT" +:+ nl]); ("c2", ["GG" +:+ nl; "TT" +:+ nl]);
       ("c3", ["CCC" +:+ nl])]
  ∧ bin_records ex_bin2contigs "A" (records (file_lines ex_fasta)) =
      [("c1", ["ACGT" +:+ nl]); ("c2", ["GG" +:+ nl; "TT" +:+ nl])]
  ∧ bin_records ex_bin2contigs "B" (records (file_lines ex_fasta)) =
      [("c2", ["GG" +:+ nl; "TT" +:+ nl])]
  ∧ files (io_of (split_fasta_by_bin ex_fasta ex_bin2contigs None)) =
      {[ "A.fasta" := ">c1" +:+ nl +:+ "ACGT" +:+ nl +:+ ">c2" +:+ nl
                      +:+ "GG" +:+ nl +:+ "TT" +:+ nl;
         "B.fasta" := ">c2" +:+ nl +:+ "GG" +:+ nl +:+ "TT" +:+ nl ]}.
Proof.
  split; [| repeat split; by vm_compute].
  exists (final_io (file_lines ex_fasta) ex_bin2contigs None).
  assert (split_fasta_by_bin ex_fasta ex_bin2contigs None =
          Returned (final_io (file_lines ex_fasta) ex_bin2contigs None))
    as Hret by (by vm_compute).
  split; [exact Hret |].
  apply (C8_bin_file_contents ex_fasta ex_bin2contigs None _
           ex_bin2contigs_plain ex_bin2contigs_NoDup Hret).
Defined.

(** C9: a sequence file without marker lines (an empty one in particular)
    makes the splitter return with the directory created, an empty registry
    and no file written; and in any run with bins that name plain files, a
    bin that owns no record of the file is not registered and its file is
    not created or touched. *)
Theorem C9_nothing_to_write asm m dir :
  (body_ok (file_lines asm) →
     split_fasta_by_bin asm m dir = Returned (init_io (mkdir dir))
     ∧ ∀ a w tsv,
         paths w !! assembly a = Some asm → paths w !! map a = Some tsv →
         load_bin_contig_map tsv ≠ [] →
         main a w = (Exit0, {| paths := paths w;
                               outdir := Some (mkdir (outdir w)) |}))
  ∧ (∀ b,
       plain_bins m →
       (∀ rec, rec ∈ records (file_lines asm) → ¬ maps_to m b rec.1) →
       let st := io_of (split_fasta_by_bin asm m dir) in
       writers st !! b = None ∧
       files st !! fasta_name b = dir ≫= (.!! fasta_name b)).
Proof.
  assert (∀ m' o, body_ok (file_lines asm) →
    split_fasta_by_bin asm m' o = Returned (init_io (mkdir o))) as Hnone.
  { intros m' o Hb. rewrite split_fasta_final, well_marked_no_marker by done.
    unfold final_io. by rewrite records_no_marker. }
  split.
  - intros Hb. split; [by apply Hnone |].
    intros a w tsv Ha Hm Hne. rewrite (main_runs a w asm tsv Ha Hm Hne).
    by rewrite Hnone.
  - intros b _ Hno. simpl. rewrite io_of_split.
    assert (bin_records m b (records (file_lines asm)) = []) as Hnil.
    { unfold bin_records. apply filter_none.
      intros rec Hrec Hown. apply (Hno rec Hrec). by apply elem_of_owners. }
    split.
    + by rewrite final_io_writers, Hnil.
    + rewrite final_io_other_file.
      * by destruct dir.
      * intros b' Hb' ->%fasta_name_inj. done.
Qed.

Lemma C9_nothing_to_write_witness :
  split_fasta_by_bin "" (load_bin_contig_map ex_map) None
    = Returned (init_io ∅)
  ∧ split_fasta_by_bin ex_fasta_nomarker (load_bin_contig_map ex_map) None
    = Returned (init_io ∅)
  ∧ main ex_args (world_of ex_fasta_nomarker ex_map None) =
      (Exit0, {| paths := paths (world_of ex_fasta_nomarker ex_map None);
                 outdir := Some ∅ |})
  ∧ file_lines ex_fasta_nomarker = ["ACGT" +:+ nl; "GG" +:+ nl]
  ∧ (let st := io_of (split_fasta_by_bin ex_fasta_head ex_bin2contigs None) in
     writers st !! "B" = None ∧ files st !! fasta_name "B" = None)
  ∧ io_of (split_fasta_by_bin ex_fasta_head ex_bin2contigs None) =
      {| writers := {[ "A" := "A.fasta" ]};
         files := {[ "A.fasta" := ">c1" +:+ nl +:+ "ACGT" +:+ nl ]} |}.
Proof.
  split; [| split; [| split; [| split; [by vm_compute | split;
    [| by vm_compute]]]]].
  - apply (C9_nothing_to_write "" (load_bin_contig_map ex_map) None).
    by vm_compute.
  - apply (C9_nothing_to_write ex_fasta_nomarker (load_bin_contig_map ex_map) None).
    repeat constructor.
  - apply (proj1 (C9_nothing_to_write ex_fasta_nomarker
                    (load_bin_contig_map ex_map) None)) with (tsv := ex_map).
    + repeat constructor.
    + by vm_compute.
    + by vm_compute.
    + by rewrite ex_map_loaded.
  - apply (proj2 (C9_nothing_to_write ex_fasta_head ex_bin2contigs None) "B"
             ex_bin2contigs_plain).
    intros rec Hrec (s & Hin & Hc).
    assert (records (file_lines ex_fasta_head) = [("c1", ["ACGT" +:+ nl])])
      as Hr by by vm_compute.
    rewrite Hr in Hrec. apply list_elem_of_singleton in Hrec as ->.
    apply elem_of_cons in Hin as [[=]|Hin].
    apply list_elem_of_singleton in Hin as [= ->]. simpl in Hc.
    by apply elem_of_singleton in Hc.
Defined.

(** C10: the lines before the first marker line are put in the buffer and
    nothing is written; with no current record the flush at the first marker
    does nothing and the marker line starts from an empty buffer, so the run
    is the run on the file without these lines. *)
Theorem C10_preamble_discarded pre rest m dir :
  body_ok pre →
  read_lines (invert m) (reader0 (mkdir dir)) pre =
    Returned {| current_contig := None; seq_buffer := pre;
                out := init_io (mkdir dir) |}
  ∧ (∀ st, flush (invert m) None pre st = st)
  ∧ (∀ st line, startswith_gt line = true →
       read_line (invert m)
         {| current_contig := None; seq_buffer := pre; out := st |} line =
       read_line (invert m)
         {| current_contig := None; seq_buffer := []; out := st |} line)
  ∧ split_lines (pre ++ rest) m dir = split_lines rest m dir
  ∧ (∀ asm asm', file_lines asm = pre ++ file_lines asm' →
       split_fasta_by_bin asm m dir = split_fasta_by_bin asm' m dir).
Proof.
  intros Hp.
  assert (split_lines (pre ++ rest) m dir = split_lines rest m dir) as Hrest.
  { rewrite !split_lines_final. unfold final_io, well_marked, records.
    by rewrite parse_preamble. }
  split; [by rewrite read_lines_body |]. split; [done |].
  split; [| split; [done |]].
  - intros st line Hl. unfold read_line. by rewrite Hl.
  - intros asm asm' Hl. unfold split_fasta_by_bin. rewrite Hl.
    rewrite !split_lines_final. unfold final_io, well_marked, records.
    by rewrite parse_preamble.
Qed.

Lemma C10_preamble_discarded_witness :
  split_fasta_by_bin ex_fasta_preamble (load_bin_contig_map ex_map) None =
  split_fasta_by_bin (">c2 x" +:+ nl +:+ "GG" +:+ nl) (load_bin_contig_map ex_map) None.
Proof.
  apply (C10_preamble_discarded ["# assembly" +:+ nl; nl] []
           (load_bin_contig_map ex_map) None).
  - repeat constructor.
  - by vm_compute.
Defined.

(** * Further properties of the code *)

(** ** The index *)

Lemma owners_sublist c m : owners c m `sublist_of` m.*1.
Proof.
  induction m as [|item m IH]; [done |].
  rewrite owners_cons, fmap_cons. destruct (decide (c ∈ item.2)).
  - by apply sublist_skip.
  - by apply sublist_cons.
Qed.

(** X1: looking a contig up in the inverted index gives exactly the bins
    mapped to it, each once, in the order of the dictionary; the contig is a
    key of the index only when some bin is mapped to it. *)
Theorem X1_index_lookup m c :
  NoDup m.*1 →
  (∀ b, maps_to m b c ↔ ∃ bs, invert m !! c = Some bs ∧ b ∈ bs)
  ∧ (invert m !! c = None ↔ ∀ b, ¬ maps_to m b c)
  ∧ (∀ bs, invert m !! c = Some bs →
       bs ≠ [] ∧ NoDup bs ∧ bs `sublist_of` m.*1).
Proof.
  intros Hnd. rewrite invert_lookup.
  pose proof (owners_NoDup m c Hnd) as Hno.
  pose proof (owners_sublist c m) as Hsub.
  assert (∀ b, maps_to m b c ↔ b ∈ owners c m) as Hmap.
  { intros b. symmetry. apply elem_of_owners. }
  destruct (owners c m) as [|b0 bs0] eqn:Ho.
  - split; [| split].
    + intros b. rewrite Hmap. split; [by intros ?%elem_of_nil |].
      by intros (bs & [=] & _).
    + split; [| done]. intros _ b. rewrite Hmap. by intros ?%elem_of_nil.
    + by intros bs [=].
  - split; [| split].
    + intros b. rewrite Hmap. split.
      * intros Hin. by exists (b0 :: bs0).
      * by intros (bs & [= <-] & Hin).
    + split; [done |]. intros Hn. exfalso. apply (Hn b0). apply Hmap. by left.
    + by intros bs [= <-].
Qed.

Lemma X1_index_lookup_witness :
  (∀ b, maps_to ex_bin2contigs b "c2" ↔
        ∃ bs, invert ex_bin2contigs !! "c2" = Some bs ∧ b ∈ bs)
  ∧ (invert ex_bin2contigs !! "c2" = None ↔ ∀ b, ¬ maps_to ex_bin2contigs b "c2")
  ∧ (∀ bs, invert ex_bin2contigs !! "c2" = Some bs →
       bs ≠ [] ∧ NoDup bs ∧ bs `sublist_of` ex_bin2contigs.*1).
Proof.
  apply (X1_index_lookup ex_bin2contigs "c2").
  refine (bool_decide_unpack _ _). by vm_compute.
Defined.

(** ** The loaded dictionary *)

Lemma row_pair_tokens line b c :
  row_pair line = Some (b, c) → is_token b ∧ is_token c.
Proof.
  unfold row_pair. pose proof (split_tokens line) as Hf.
  destruct (split line) as [|b' [|c' rest]]; [done | done |].
  intros [= <- <-]. apply Forall_cons in Hf as [Hb Hf].
  by apply Forall_cons in Hf as [Hc _].
Qed.

Lemma add_contig_entries b c d :
  is_token b → is_token c → Forall entry_ok d → Forall entry_ok (add_contig b c d).
Proof.
  intros Hb Hc. induction 1 as [|[k s] d Hks Hd IH].
  - constructor; [| constructor]. unfold entry_ok. simpl.
    split; [done |]. split.
    + intros He. assert (c ∈ (∅ : gset string)) as Hin.
      { rewrite <- He. by apply elem_of_singleton. }
      by apply not_elem_of_empty in Hin.
    + by intros c' ->%elem_of_singleton.
  - unfold entry_ok in Hks. simpl in Hks. destruct Hks as (Hk & Hs & Hcs).
    rewrite add_contig_cons. destruct (decide (k = b)) as [->|Hne].
    + constructor; [| done]. unfold entry_ok. simpl. split; [done |]. split.
      * intros He. assert (c ∈ (∅ : gset string)) as Hin.
        { rewrite <- He. apply elem_of_union. left. by apply elem_of_singleton. }
        by apply not_elem_of_empty in Hin.
      * intros c' [->%elem_of_singleton|Hin]%elem_of_union; [done |].
        by apply Hcs.
    + constructor; [| done]. unfold entry_ok. simpl. done.
Qed.

Lemma load_rows_entries d lines :
  Forall entry_ok d → Forall entry_ok (foldl load_row d lines).
Proof.
  revert d. induction lines as [|line lines IH]; intros d Hd; [done |].
  rewrite foldl_unfold. apply IH. rewrite load_row_pair.
  destruct (row_pair line) as [[b c]|] eqn:Hr; [| done].
  apply row_pair_tokens in Hr as [Hb Hc]. by apply add_contig_entries.
Qed.

(** X2: in the dictionary the loader returns, every bin identifier and
    every contig identifier is not empty and holds no whitespace, and no bin
    has an empty set of contigs. *)
Theorem X2_loaded_entries tsv b s :
  (b, s) ∈ load_bin_contig_map tsv →
  is_token b ∧ s ≠ ∅ ∧ ∀ c, c ∈ s → is_token c.
Proof.
  intros Hin.
  pose proof (load_rows_entries [] (tail (file_lines tsv)) (Forall_nil_2 _)) as Hf.
  rewrite Forall_forall in Hf. apply (Hf (b, s) Hin).
Qed.

Lemma X2_loaded_entries_witness :
  is_token "A" ∧ ({["c1"]} : gset string) ≠ ∅
  ∧ ∀ c, c ∈ ({["c1"]} : gset string) → is_token c.
Proof.
  apply (X2_loaded_entries ex_map_rowlike "A" {["c1"]}).
  rewrite ex_rowlike_loaded. by left.
Defined.

(** X3: a mapping file that is empty or holds its first line only is
    refused: [main] ends through [sys.exit] with the message of the empty
    mapping, whatever the assembly holds, and the output directory is neither
    created nor changed. *)
Theorem X3_header_only_map a w asm tsv :
  paths w !! assembly a = Some asm → paths w !! map a = Some tsv →
  (length (file_lines tsv) ≤ 1)%nat →
  main a w = (SysExit NoMappings, w).
Proof.
  intros Ha Hm Hlen. unfold main. rewrite Ha, Hm.
  assert (load_bin_contig_map tsv = []) as ->; [| done].
  unfold load_bin_contig_map.
  destruct (file_lines tsv) as [|h [|l ls]]; [done | done | simpl in Hlen; lia].
Qed.

Lemma X3_header_only_map_witness :
  main ex_args (world_of ex_fasta_bare ("bin" +:+ tab +:+ "contig" +:+ nl) None)
  = (SysExit NoMappings,
     world_of ex_fasta_bare ("bin" +:+ tab +:+ "contig" +:+ nl) None).
Proof.
  apply (X3_header_only_map ex_args _ ex_fasta_bare
           ("bin" +:+ tab +:+ "contig" +:+ nl)).
  - by vm_compute.
  - by vm_compute.
  - vm_compute. lia.
Defined.

(** ** The registry and the directory after any run *)

Lemma final_io_ok lines m dir : handles_ok (final_io lines m dir).
Proof. apply write_events_ok, handles_ok_init. Qed.

Lemma bin_records_nonempty m b recs :
  bin_records m b recs ≠ [] → ∃ rec, rec ∈ recs ∧ maps_to m b rec.1.
Proof.
  destruct (bin_records m b recs) as [|rec rs] eqn:Hrs; [done |]. intros _.
  assert (rec ∈ bin_records m b recs) as Hin by (rewrite Hrs; by left).
  apply list_elem_of_filter in Hin as [Hown Hin].
  exists rec. split; [done |]. by apply elem_of_owners.
Qed.

Lemma final_io_changed lines m dir f :
  files (final_io lines m dir) !! f ≠ mkdir dir !! f →
  ∃ b, f = fasta_name b ∧ bin_records m b (records lines) ≠ [].
Proof.
  intros Hch.
  destruct (decide (f ∈ fasta_name <$> (events m (records lines)).*1))
    as [Hin|Hin].
  - apply list_elem_of_fmap in Hin as (b & -> & Hb). exists b.
    split; [done |]. by apply elem_of_events_bins.
  - exfalso. apply Hch. apply final_io_other_file.
    intros b Hb ->. apply Hin. apply list_elem_of_fmap. exists b.
    split; [done |]. by apply elem_of_events_bins.
Qed.

(** X4: for bins that name plain files, after any run of the splitter,
    returned or raised, every entry of the registry belongs to a bin that
    owns a record read from the sequence file, and its handle is the one
    opened on the file of that bin, which exists; no file of the directory
    has been removed; and a file whose text changed, or that was created, is
    the file of a registered bin. *)
Theorem X4_registry_and_directory asm m dir :
  plain_bins m →
  let st := io_of (split_fasta_by_bin asm m dir) in
  (∀ b fh, writers st !! b = Some fh →
     fh = fasta_name b ∧ is_Some (files st !! fh) ∧
     ∃ rec, rec ∈ records (file_lines asm) ∧ maps_to m b rec.1)
  ∧ (∀ f, is_Some (mkdir dir !! f) → is_Some (files st !! f))
  ∧ (∀ f, files st !! f ≠ mkdir dir !! f →
       ∃ b, f = fasta_name b ∧ writers st !! b = Some f).
Proof.
  intros _. simpl. rewrite io_of_split. split; [| split].
  - intros b fh Hw.
    destruct (final_io_ok (file_lines asm) m dir b fh Hw) as [-> Hs].
    split; [done |]. split; [done |]. apply bin_records_nonempty.
    rewrite final_io_writers in Hw.
    by destruct (bin_records m b (records (file_lines asm))).
  - intros f Hold.
    destruct (decide (files (final_io (file_lines asm) m dir) !! f
                      = mkdir dir !! f)) as [->|Hch]; [done |].
    apply final_io_changed in Hch as (b & -> & Hb).
    apply (final_io_ok (file_lines asm) m dir b (fasta_name b)).
    rewrite final_io_writers.
    by destruct (bin_records m b (records (file_lines asm))).
  - intros f (b & -> & Hb)%final_io_changed. exists b. split; [done |].
    rewrite final_io_writers.
    by destruct (bin_records m b (records (file_lines asm))).
Qed.

Lemma X4_registry_and_directory_witness :
  (let st := io_of (split_fasta_by_bin ex_fasta ex_bin2contigs
                      (Some {[ "old.txt" := "kept" ]})) in
   (∀ b fh, writers st !! b = Some fh →
      fh = fasta_name b ∧ is_Some (files st !! fh) ∧
      ∃ rec, rec ∈ records (file_lines ex_fasta) ∧ maps_to ex_bin2contigs b rec.1)
   ∧ (∀ f, is_Some (mkdir (Some {[ "old.txt" := "kept" ]}) !! f) →
        is_Some (files st !! f))
   ∧ (∀ f, files st !! f ≠ mkdir (Some {[ "old.txt" := "kept" ]}) !! f →
        ∃ b, f = fasta_name b ∧ writers st !! b = Some f))
  ∧ io_of (split_fasta_by_bin ex_fasta ex_bin2contigs
             (Some {[ "old.txt" := "kept" ]})) =
      {| writers := {[ "A" := "A.fasta"; "B" := "B.fasta" ]};
         files := {[ "A.fasta" := ">c1" +:+ nl +:+ "ACGT" +:+ nl +:+ ">c2" +:+ nl
                                  +:+ "GG" +:+ nl +:+ "TT" +:+ nl;
                     "B.fasta" := ">c2" +:+ nl +:+ "GG" +:+ nl +:+ "TT" +:+ nl;
                     "old.txt" := "kept" ]} |}.
Proof.
  split; [| by vm_compute].
  apply (X4_registry_and_directory ex_fasta ex_bin2contigs
           (Some {[ "old.txt" := "kept" ]}) ex_bin2contigs_plain).
Defined.

(** ** A run that raises *)

Lemma parse_from_stop cur buf pre bad post :
  (parse_from cur buf pre).2 = true → bare_marker bad →
  parse_from cur buf (pre ++ bad :: post) = ((parse_from cur buf pre).1, false).
Proof.
  intros Hok [Hs Hsp]. revert cur buf Hok.
  induction pre as [|line pre IH]; intros cur buf Hok.
  - by rewrite app_nil_l, parse_from_cons, Hs, Hsp.
  - rewrite <- app_comm_cons, !parse_from_cons.
    rewrite parse_from_cons in Hok. destruct (startswith_gt line).
    + destruct (split (strip (drop1 line))) as [|tok toks]; [done |].
      simpl in *. by rewrite IH.
    + by apply IH.
Qed.

(** X5: for bins that name plain files, when the first marker line
    without a token comes after the lines [pre], the splitter raises there and leaves the registry and the files
    exactly as a complete run on [pre] alone leaves them: every record before
    the bad line is written, the one just before it included, and nothing
    after it is. *)
Theorem X5_raise_keeps_prefix pre bad post m dir :
  plain_bins m → well_marked pre = true → bare_marker bad →
  split_lines (pre ++ bad :: post) m dir =
    Raised IndexError (io_of (split_lines pre m dir))
  ∧ split_lines pre m dir = Returned (io_of (split_lines pre m dir)).
Proof.
  intros _ Hok Hbad. rewrite !split_lines_final, Hok. simpl.
  unfold final_io, well_marked, records.
  by rewrite (parse_from_stop None [] pre bad post Hok Hbad).
Qed.

Lemma X5_raise_keeps_prefix_witness :
  (split_lines ([">c1" +:+ nl; "ACGT" +:+ nl] ++ ("> " +:+ nl) :: ["GG" +:+ nl])
     ex_bin2contigs None =
     Raised IndexError
       (io_of (split_lines [">c1" +:+ nl; "ACGT" +:+ nl] ex_bin2contigs None))
   ∧ split_lines [">c1" +:+ nl; "ACGT" +:+ nl] ex_bin2contigs None =
       Returned (io_of (split_lines [">c1" +:+ nl; "ACGT" +:+ nl] ex_bin2contigs None)))
  ∧ io_of (split_lines [">c1" +:+ nl; "ACGT" +:+ nl] ex_bin2contigs None) =
      {| writers := {[ "A" := "A.fasta" ]};
         files := {[ "A.fasta" := ">c1" +:+ nl +:+ "ACGT" +:+ nl ]} |}
  ∧ file_lines ex_fasta_bare =
      [">c1" +:+ nl; "ACGT" +:+ nl] ++ ("> " +:+ nl) :: ["GG" +:+ nl].
Proof.
  split; [| split; by vm_compute].
  apply (X5_raise_keeps_prefix [">c1" +:+ nl; "ACGT" +:+ nl] ("> " +:+ nl)
           ["GG" +:+ nl] ex_bin2contigs None).
  - exact ex_bin2contigs_plain.
  - by vm_compute.
  - by vm_compute.
Defined.

(** ** What the splitter reads of a marker line *)

Lemma parse_from_equiv cur buf lines lines' :
  Forall2 line_equiv lines lines' →
  parse_from cur buf lines = parse_from cur buf lines'.
Proof.
  intros Heq. revert cur buf.
  induction Heq as [|l l' lines lines' Hl Heq IH]; intros cur buf; [done |].
  rewrite !parse_from_cons. destruct Hl as [<-|(Hs & Hs' & Hid)].
  - destruct (startswith_gt l); [| by rewrite IH].
    destruct (split (strip (drop1 l))); [done |]. by rewrite IH.
  - rewrite Hs, Hs'. unfold header_id in Hid.
    destruct (split (strip (drop1 l))) as [|tok toks],
      (split (strip (drop1 l'))) as [|tok' toks']; try done.
    injection Hid as <-. by rewrite IH.
Qed.

(** X6: only the first token after the marker is read from a marker line:
    two sequence files that differ only in what follows that token on their
    marker lines give the same run, with the same files. *)
Theorem X6_annotation_ignored asm asm' m dir :
  Forall2 line_equiv (file_lines asm) (file_lines asm') →
  split_fasta_by_bin asm m dir = split_fasta_by_bin asm' m dir.
Proof.
  intros Heq. rewrite !split_fasta_final.
  unfold final_io, well_marked, records.
  by rewrite (parse_from_equiv None [] _ _ Heq).
Qed.

Lemma X6_annotation_ignored_witness :
  split_fasta_by_bin ex_fasta ex_bin2contigs None =
  split_fasta_by_bin ex_fasta_plain ex_bin2contigs None.
Proof.
  apply (X6_annotation_ignored ex_fasta ex_fasta_plain ex_bin2contigs None).
  repeat constructor; first [by left | right; by vm_compute].
Defined.

(** ** One sequence file after another *)

Lemma parse_from_marker_head cur buf h rest :
  startswith_gt h = true →
  parse_from cur buf (h :: rest) =
    (close_record cur buf ++ records (h :: rest), well_marked (h :: rest)).
Proof.
  intros Hs. unfold records, well_marked. rewrite !parse_from_cons, Hs.
  destruct (split (strip (drop1 h))); simpl; [by rewrite app_nil_r | done].
Qed.

Lemma parse_from_app cur buf lines h rest :
  (parse_from cur buf lines).2 = true → startswith_gt h = true →
  parse_from cur buf (lines ++ h :: rest) =
    ((parse_from cur buf lines).1 ++ records (h :: rest), well_marked (h :: rest)).
Proof.
  intros Hok Hs. revert cur buf Hok.
  induction lines as [|line lines IH]; intros cur buf Hok.
  - rewrite app_nil_l. by apply parse_from_marker_head.
  - rewrite <- app_comm_cons, !parse_from_cons.
    rewrite parse_from_cons in Hok. destruct (startswith_gt line).
    + destruct (split (strip (drop1 line))) as [|tok toks]; [done |].
      simpl in *. rewrite IH by done. simpl. by rewrite app_assoc.
    + by apply IH.
Qed.

Lemma bin_records_app m b recs recs' :
  bin_records m b (recs ++ recs') = bin_records m b recs ++ bin_records m b recs'.
Proof. apply filter_app. Qed.

Lemma final_io_fresh_lookup lines m f :
  NoDup m.*1 →
  files (final_io lines m None) !! f =
    if decide (f ∈ fasta_name <$> m.*1) then
      match filter (λ b, f = fasta_name b) m.*1 with
      | b :: _ =>
          match bin_records m b (records lines) with
          | [] => None
          | rs => Some (render_all rs)
          end
      | [] => None
      end
    else None.
Proof.
  intros Hnd. destruct (decide (f ∈ fasta_name <$> m.*1)) as [Hin|Hin].
  - apply list_elem_of_fmap in Hin as (b & -> & Hb).
    assert (b ∈ filter (λ b', fasta_name b = fasta_name b') m.*1) as Hf
      by by apply list_elem_of_filter.
    destruct (filter (λ b', fasta_name b = fasta_name b') m.*1) as [|b' bs] eqn:He;
      [by apply elem_of_nil in Hf |].
    assert (b' ∈ filter (λ b', fasta_name b = fasta_name b') m.*1) as Hb'
      by (rewrite He; by left).
    apply list_elem_of_filter in Hb' as [<-%fasta_name_inj _].
    rewrite final_io_bin_file by done.
    by destruct (bin_records m b (records lines)).
  - rewrite final_io_other_file; [done |].
    intros b Hb ->. apply Hin. apply list_elem_of_fmap. exists b.
    split; [done |]. by eapply bin_records_keys.
Qed.

(** X7: for bins that name plain files, reading one sequence file after
    another, the second starting on a marker line, is splitting each on its
    own: the records are those of the
    first followed by those of the second, and in a fresh directory every bin
    file holds what the first run writes followed by what the second writes. *)
Theorem X7_concatenation lines h rest m :
  plain_bins m →
  NoDup m.*1 → well_marked lines = true → startswith_gt h = true →
  records (lines ++ h :: rest) = records lines ++ records (h :: rest)
  ∧ well_marked (lines ++ h :: rest) = well_marked (h :: rest)
  ∧ files (io_of (split_lines (lines ++ h :: rest) m None)) =
      append_files (files (io_of (split_lines lines m None)))
                   (files (io_of (split_lines (h :: rest) m None))).
Proof.
  intros _ Hnd Hok Hs.
  pose proof (parse_from_app None [] lines h rest Hok Hs) as Hp.
  assert (records (lines ++ h :: rest) = records lines ++ records (h :: rest))
    as Hrecs by (unfold records at 1; by rewrite Hp).
  split; [done |]. split; [unfold well_marked at 1; by rewrite Hp |].
  assert (∀ ls, io_of (split_lines ls m None) = final_io ls m None) as Hio.
  { intros ls. rewrite split_lines_final. by destruct (well_marked ls). }
  rewrite !Hio. apply map_eq. intros f. unfold append_files.
  rewrite lookup_union_with, !final_io_fresh_lookup by done.
  destruct (decide (f ∈ fasta_name <$> m.*1)); [| done].
  destruct (filter (λ b, f = fasta_name b) m.*1) as [|b bs]; [done |].
  rewrite Hrecs, bin_records_app.
  destruct (bin_records m b (records lines)) as [|r1 rs1],
    (bin_records m b (records (h :: rest))) as [|r2 rs2]; simpl; try done.
  - by rewrite app_nil_r.
  - f_equal. apply (render_all_app (r1 :: rs1) (r2 :: rs2)).
Qed.

Lemma X7_concatenation_witness :
  (records (file_lines ex_fasta_head ++ (">c2" +:+ nl) :: tail (file_lines ex_fasta_tail))
    = records (file_lines ex_fasta_head)
      ++ records ((">c2" +:+ nl) :: tail (file_lines ex_fasta_tail))
   ∧ well_marked (file_lines ex_fasta_head ++ (">c2" +:+ nl) :: tail (file_lines ex_fasta_tail))
     = well_marked ((">c2" +:+ nl) :: tail (file_lines ex_fasta_tail))
   ∧ files (io_of (split_lines
                     (file_lines ex_fasta_head
                      ++ (">c2" +:+ nl) :: tail (file_lines ex_fasta_tail))
                     ex_bin2contigs None)) =
       append_files
         (files (io_of (split_lines (file_lines ex_fasta_head) ex_bin2contigs None)))
         (files (io_of (split_lines ((">c2" +:+ nl) :: tail (file_lines ex_fasta_tail))
                          ex_bin2contigs None))))
  ∧ file_lines ex_fasta_head ++ (">c2" +:+ nl) :: tail (file_lines ex_fasta_tail)
    = file_lines ex_fasta
  ∧ files (io_of (split_lines (file_lines ex_fasta_head) ex_bin2contigs None))
    = {[ "A.fasta" := ">c1" +:+ nl +:+ "ACGT" +:+ nl ]}
  ∧ files (io_of (split_lines (file_lines ex_fasta_tail) ex_bin2contigs None))
    = {[ "A.fasta" := ">c2" +:+ nl +:+ "GG" +:+ nl +:+ "TT" +:+ nl;
         "B.fasta" := ">c2" +:+ nl +:+ "GG" +:+ nl +:+ "TT" +:+ nl ]}
  ∧ files (io_of (split_lines (file_lines ex_fasta) ex_bin2contigs None))
    = {[ "A.fasta" := ">c1" +:+ nl +:+ "ACGT" +:+ nl +:+ ">c2" +:+ nl
                      +:+ "GG" +:+ nl +:+ "TT" +:+ nl;
         "B.fasta" := ">c2" +:+ nl +:+ "GG" +:+ nl +:+ "TT" +:+ nl ]}.
Proof.
  split; [| repeat split; by vm_compute].
  apply (X7_concatenation (file_lines ex_fasta_head) (">c2" +:+ nl)
           (tail (file_lines ex_fasta_tail)) ex_bin2contigs).
  - exact ex_bin2contigs_plain.
  - exact ex_bin2contigs_NoDup.
  - by vm_compute.
  - by vm_compute.
Defined.

(** ** Splitting what the splitter wrote *)

Lemma bin_records_all m b recs :
  (∀ rec, rec ∈ recs → maps_to m b rec.1) → bin_records m b recs = recs.
Proof.
  induction recs as [|rec recs IH]; intros Hall; [done |].
  rewrite bin_records_cons, decide_True.
  - rewrite IH; [done |]. intros r Hr. apply Hall. by right.
  - apply elem_of_owners. apply Hall. by left.
Qed.

Lemma bin_records_idem m b recs :
  bin_records m b (bin_records m b recs) = bin_records m b recs.
Proof.
  apply bin_records_all. intros rec [Hown _]%list_elem_of_filter.
  by apply elem_of_owners.
Qed.

Lemma final_io_rendered recs m b dir :
  NoDup m.*1 → recs_ok recs → recs ≠ [] → bin_records m b recs = recs →
  split_fasta_by_bin (render_all recs) m dir =
    Returned (final_io (file_lines (render_all recs)) m dir)
  ∧ files (final_io (file_lines (render_all recs)) m dir) !! fasta_name b
    = Some (render_all recs).
Proof.
  intros Hnd Hok Hne Hall.
  destruct (records_render_all recs Hok) as [Hrecs Hwm].
  split; [by rewrite split_fasta_final, Hwm |].
  rewrite final_io_bin_file, Hrecs, Hall by done. by destruct recs.
Qed.

(** X8: for bins that name plain files, the file a returning run wrote
    for a registered bin is a fixed point of the splitter: given as the
    sequence file of a run with the same dictionary into a directory that
    does not exist yet, it is read without error and written for that bin as
    the same text. *)
Theorem X8_resplit_fixed_point asm m dir st b fh :
  plain_bins m → NoDup m.*1 →
  split_fasta_by_bin asm m dir = Returned st →
  writers st !! b = Some fh →
  ∃ text st',
    files st !! fh = Some text
    ∧ split_fasta_by_bin text m None = Returned st'
    ∧ files st' !! fh = Some text.
Proof.
  intros _ Hnd [-> _]%returned_final Hw.
  destruct (final_io_ok (file_lines asm) m dir b fh Hw) as [-> _].
  rewrite final_io_writers in Hw. rewrite final_io_bin_file by done.
  set (rs := bin_records m b (records (file_lines asm))) in *.
  assert (rs ≠ []) as Hne by by destruct rs.
  destruct (final_io_rendered rs m b None Hnd) as [Hret Hfile];
    [apply bin_records_ok, file_lines_ok | done | apply bin_records_idem |].
  exists (render_all rs), (final_io (file_lines (render_all rs)) m None).
  split; [by destruct rs | done].
Qed.

Lemma X8_resplit_fixed_point_witness :
  (∃ text st',
     files (final_io (file_lines ex_fasta) ex_bin2contigs None) !! "A.fasta"
       = Some text
     ∧ split_fasta_by_bin text ex_bin2contigs None = Returned st'
     ∧ files st' !! "A.fasta" = Some text)
  ∧ files (final_io (file_lines ex_fasta) ex_bin2contigs None) !! "A.fasta"
    = Some (">c1" +:+ nl +:+ "ACGT" +:+ nl +:+ ">c2" +:+ nl +:+ "GG" +:+ nl
            +:+ "TT" +:+ nl)
  ∧ files (io_of (split_fasta_by_bin
                    (">c1" +:+ nl +:+ "ACGT" +:+ nl +:+ ">c2" +:+ nl +:+ "GG" +:+ nl
                     +:+ "TT" +:+ nl) ex_bin2contigs None)) !! "A.fasta"
    = Some (">c1" +:+ nl +:+ "ACGT" +:+ nl +:+ ">c2" +:+ nl +:+ "GG" +:+ nl
            +:+ "TT" +:+ nl).
Proof.
  split; [| split; by vm_compute].
  apply (X8_resplit_fixed_point ex_fasta ex_bin2contigs None
           (final_io (file_lines ex_fasta) ex_bin2contigs None) "A" "A.fasta").
  - exact ex_bin2contigs_plain.
  - exact ex_bin2contigs_NoDup.
  - by vm_compute.
  - by vm_compute.
Defined.

(** X9: for bins that name plain files, a sequence text that is already in the written form (every marker
    line is the marker, the identifier and a newline; no line before the
    first marker) and whose records all belong to one bin is copied to the
    file of that bin character for character. *)
Theorem X9_canonical_copy recs m b dir :
  plain_bins m → NoDup m.*1 → recs_ok recs → recs ≠ [] →
  (∀ rec, rec ∈ recs → maps_to m b rec.1) →
  ∃ st,
    split_fasta_by_bin (render_all recs) m dir = Returned st
    ∧ files st !! fasta_name b = Some (render_all recs).
Proof.
  intros _ Hnd Hok Hne Hall. eexists.
  apply (final_io_rendered recs m b dir Hnd Hok Hne).
  by apply bin_records_all.
Qed.

Lemma X9_canonical_copy_witness :
  (∃ st,
     split_fasta_by_bin
       (render_all [("c1", ["ACGT" +:+ nl]); ("c2", ["GG" +:+ nl; "TT"])])
       ex_bin2contigs None = Returned st
     ∧ files st !! fasta_name "A" =
         Some (render_all [("c1", ["ACGT" +:+ nl]); ("c2", ["GG" +:+ nl; "TT"])]))
  ∧ render_all [("c1", ["ACGT" +:+ nl]); ("c2", ["GG" +:+ nl; "TT"])]
    = ">c1" +:+ nl +:+ "ACGT" +:+ nl +:+ ">c2" +:+ nl +:+ "GG" +:+ nl +:+ "TT"
  ∧ files (io_of (split_fasta_by_bin
                    (">c1" +:+ nl +:+ "ACGT" +:+ nl +:+ ">c2" +:+ nl +:+ "GG" +:+ nl
                     +:+ "TT") ex_bin2contigs None)) !! "A.fasta"
    = Some (">c1" +:+ nl +:+ "ACGT" +:+ nl +:+ ">c2" +:+ nl +:+ "GG" +:+ nl +:+ "TT").
Proof.
  split; [| split; by vm_compute].
  apply (X9_canonical_copy
           [("c1", ["ACGT" +:+ nl]); ("c2", ["GG" +:+ nl; "TT"])]
           ex_bin2contigs "A" None).
  - exact ex_bin2contigs_plain.
  - exact ex_bin2contigs_NoDup.
  - change (recs_ok (records (file_lines
      (">c1" +:+ nl +:+ "ACGT" +:+ nl +:+ ">c2" +:+ nl +:+ "GG" +:+ nl +:+ "TT")))).
    apply records_ok, file_lines_ok.
  - done.
  - intros rec Hrec. exists {["c1"; "c2"]}. split; [by left |].
    apply elem_of_cons in Hrec as [->|Hrec]; [by vm_compute |].
    apply elem_of_cons in Hrec as [->|Hrec]; [by vm_compute |].
    by apply elem_of_nil in Hrec.
Defined.

(** ** The mapping counts as a relation *)

Lemma bin_records_ext m m' b recs :
  (∀ b c, maps_to m b c ↔ maps_to m' b c) →
  bin_records m b recs = bin_records m' b recs.
Proof.
  intros Heq. induction recs as [|rec recs IH]; [done |].
  rewrite !bin_records_cons, IH.
  destruct (decide (b ∈ owners rec.1 m)) as [Hin|Hin],
    (decide (b ∈ owners rec.1 m')) as [Hin'|Hin']; try done.
  - exfalso. apply Hin'. apply elem_of_owners, Heq, elem_of_owners, Hin.
  - exfalso. apply Hin. apply elem_of_owners, Heq, elem_of_owners, Hin'.
Qed.

Lemma final_io_ext lines m m' dir :
  NoDup m.*1 → NoDup m'.*1 →
  (∀ b c, maps_to m b c ↔ maps_to m' b c) →
  final_io lines m dir = final_io lines m' dir.
Proof.
  intros Hnd Hnd' Heq.
  assert (∀ b, bin_records m b (records lines) = bin_records m' b (records lines))
    as Hbin by (intros b; by apply bin_records_ext).
  assert (writers (final_io lines m dir) = writers (final_io lines m' dir)) as Hw.
  { apply map_eq. intros b. by rewrite !final_io_writers, Hbin. }
  assert (files (final_io lines m dir) = files (final_io lines m' dir)) as Hf.
  { apply map_eq. intros f.
    destruct (decide (f ∈ fasta_name <$> (events m (records lines)).*1))
      as [Hin|Hin].
    - apply list_elem_of_fmap in Hin as (b & -> & Hb).
      by rewrite !final_io_bin_file, Hbin by done.
    - rewrite !final_io_other_file; [done | |].
      + intros b Hb ->. apply Hin. apply list_elem_of_fmap. exists b.
        split; [done |]. apply elem_of_events_bins. by rewrite Hbin.
      + intros b Hb ->. apply Hin. apply list_elem_of_fmap. exists b.
        split; [done |]. by apply elem_of_events_bins. }
  destruct (final_io lines m dir), (final_io lines m' dir). simpl in *.
  by subst.
Qed.

Lemma load_maps_to_rows tsv b c :
  maps_to (load_bin_contig_map tsv) b c ↔ has_row tsv b c.
Proof.
  unfold load_bin_contig_map, has_row. rewrite load_rows_maps_to.
  split; [| by right]. intros [(s & Hin & _)|?]; [| done].
  by apply elem_of_nil in Hin.
Qed.

Lemma ex_map_plain_rows : plain_rows ex_map.
Proof.
  intros b c (s & Hin & _)%load_maps_to_rows. rewrite ex_map_loaded in Hin.
  apply elem_of_cons in Hin as [[= -> _]|Hin]; [by vm_compute |].
  apply list_elem_of_singleton in Hin as [= -> _]. by vm_compute.
Qed.

(** X10: for bins that name plain files, the run depends on the mapping
    file only through the set of its valid rows: two mapping files with the same rows, in any order and any
    number of times, under any first line, give the same run of the splitter
    and the same end of [main]. *)
Theorem X10_rows_as_a_set tsv tsv' :
  plain_rows tsv →
  (∀ b c, has_row tsv b c ↔ has_row tsv' b c) →
  (∀ asm dir,
     split_fasta_by_bin asm (load_bin_contig_map tsv) dir =
     split_fasta_by_bin asm (load_bin_contig_map tsv') dir)
  ∧ (∀ a w w',
       paths w !! assembly a = paths w' !! assembly a →
       paths w !! map a = Some tsv → paths w' !! map a = Some tsv' →
       outdir w = outdir w' →
       (main a w).1 = (main a w').1 ∧ outdir (main a w).2 = outdir (main a w').2).
Proof.
  intros _ Hrows.
  assert (∀ b c, maps_to (load_bin_contig_map tsv) b c ↔
                 maps_to (load_bin_contig_map tsv') b c) as Heq.
  { intros b c. by rewrite !load_maps_to_rows. }
  assert (∀ asm dir,
     split_fasta_by_bin asm (load_bin_contig_map tsv) dir =
     split_fasta_by_bin asm (load_bin_contig_map tsv') dir) as Hsplit.
  { intros asm dir. rewrite !split_fasta_final.
    by rewrite (final_io_ext _ _ _ dir (load_NoDup tsv) (load_NoDup tsv') Heq). }
  split; [done |]. intros a w w' Ha Hm Hm' Hdir.
  assert (load_bin_contig_map tsv = [] ↔ load_bin_contig_map tsv' = []) as Hnil.
  { rewrite !load_nil_no_rows. unfold no_rows. split; intros Hno line Hl.
    - destruct (row_pair line) as [[b c]|] eqn:Hr; [| done].
      destruct (proj2 (Hrows b c)) as (l & Hl' & Hr'); [by exists line |].
      by rewrite (Hno l Hl') in Hr'.
    - destruct (row_pair line) as [[b c]|] eqn:Hr; [| done].
      destruct (proj1 (Hrows b c)) as (l & Hl' & Hr'); [by exists line |].
      by rewrite (Hno l Hl') in Hr'. }
  destruct (paths w' !! assembly a) as [asm|] eqn:Ha'.
  - destruct (decide (load_bin_contig_map tsv = [])) as [He|He].
    + pose proof (proj1 Hnil He) as He'. unfold main.
      by rewrite Ha, Ha', Hm, Hm', He, He'.
    + assert (load_bin_contig_map tsv' ≠ []) as He' by (by rewrite <- Hnil).
      rewrite (main_runs a w asm tsv Ha Hm He).
      rewrite (main_runs a w' asm tsv' Ha' Hm' He').
      rewrite Hsplit, Hdir.
      by destruct (split_fasta_by_bin asm (load_bin_contig_map tsv') (outdir w')).
  - unfold main. by rewrite Ha, Ha'.
Qed.

Lemma X10_rows_as_a_set_witness :
  ((∀ asm dir,
      split_fasta_by_bin asm (load_bin_contig_map ex_map) dir =
      split_fasta_by_bin asm (load_bin_contig_map ex_map_shuffled) dir)
   ∧ (∀ a w w',
        paths w !! assembly a = paths w' !! assembly a →
        paths w !! map a = Some ex_map → paths w' !! map a = Some ex_map_shuffled →
        outdir w = outdir w' →
        (main a w).1 = (main a w').1 ∧ outdir (main a w).2 = outdir (main a w').2))
  ∧ load_bin_contig_map ex_map_shuffled = [("B", {["c2"]}); ("A", {["c1"; "c2"]})]
  ∧ load_bin_contig_map ex_map = [("A", {["c1"; "c2"]}); ("B", {["c2"]})]
  ∧ files (io_of (split_fasta_by_bin ex_fasta
                    (load_bin_contig_map ex_map_shuffled) None)) =
      {[ "A.fasta" := ">c1" +:+ nl +:+ "ACGT" +:+ nl +:+ ">c2" +:+ nl
                      +:+ "GG" +:+ nl +:+ "TT" +:+ nl;
         "B.fasta" := ">c2" +:+ nl +:+ "GG" +:+ nl +:+ "TT" +:+ nl ]}.
Proof.
  split; [| repeat split; by vm_compute].
  apply (X10_rows_as_a_set ex_map ex_map_shuffled ex_map_plain_rows).
  intros b c. rewrite <- !load_maps_to_rows.
  assert (load_bin_contig_map ex_map_shuffled =
          [("B", {["c2"]}); ("A", {["c1"; "c2"]})]) as -> by by vm_compute.
  rewrite ex_map_loaded. unfold maps_to, ex_bin2contigs. split.
  - intros (s & Hin & Hc).
    apply elem_of_cons in Hin as [[= -> ->]|Hin];
      [exists {["c1"; "c2"]}; split; [by right; left | done] |].
    apply elem_of_cons in Hin as [[= -> ->]|Hin];
      [exists {["c2"]}; split; [by left | done] |].
    by apply elem_of_nil in Hin.
  - intros (s & Hin & Hc).
    apply elem_of_cons in Hin as [[= -> ->]|Hin];
      [exists {["c2"]}; split; [by right; left | done] |].
    apply elem_of_cons in Hin as [[= -> ->]|Hin];
      [exists {["c1"; "c2"]}; split; [by left | done] |].
    by apply elem_of_nil in Hin.
Defined.

(** ** Records no bin owns *)

Lemma events_mapped m recs :
  events m (filter (mapped m) recs) = events m recs.
Proof.
  induction recs as [|rec recs IH]; [done |].
  rewrite filter_cons. destruct (decide (mapped m rec)) as [Hm|Hm].
  - by rewrite !events_cons, IH.
  - rewrite events_cons, IH.
    assert (owners rec.1 m = []) as ->; [| done].
    unfold mapped in Hm. destruct (owners rec.1 m); [done |].
    exfalso. by apply Hm.
Qed.

Lemma block_ok_filter (P : string * list string → Prop) `{∀ x, Decision (P x)}
    blocks :
  Forall block_ok blocks → Forall block_ok (filter P blocks).
Proof.
  induction 1 as [|blk blocks Hb Hbs IH]; [constructor |].
  rewrite filter_cons. destruct (decide (P blk)); [by constructor | done].
Qed.

Lemma fmap_filter_blocks m (blocks : list (string * list string)) :
  block_record <$> filter (λ blk, mapped m (block_record blk)) blocks =
  filter (mapped m) (block_record <$> blocks).
Proof.
  induction blocks as [|blk blocks IH]; [done |].
  rewrite fmap_cons, !filter_cons.
  destruct (decide (mapped m (block_record blk))); [| done].
  by rewrite fmap_cons, IH.
Qed.

(** X11: records whose identifier no bin is mapped to leave no trace:
    taking their blocks out of the sequence file, and the lines before the
    first marker with them, gives the same run, with the same registry and
    the same files. *)
Theorem X11_unmapped_records_dropped pre blocks m dir :
  body_ok pre → Forall block_ok blocks →
  split_lines (pre ++ blocks ≫= block_lines) m dir =
  split_lines (filter (λ blk, mapped m (block_record blk)) blocks ≫= block_lines)
    m dir.
Proof.
  intros Hp Hb. rewrite !split_lines_final.
  unfold final_io, well_marked, records.
  rewrite parse_preamble_blocks by done.
  pose proof (parse_preamble_blocks []
    (filter (λ blk, mapped m (block_record blk)) blocks)
    (Forall_nil_2 _) (block_ok_filter _ _ Hb)) as Hp'.
  rewrite app_nil_l in Hp'. rewrite Hp'. simpl.
  by rewrite fmap_filter_blocks, events_mapped.
Qed.

Lemma X11_unmapped_records_dropped_witness :
  split_lines
    (["# assembly" +:+ nl]
     ++ [(">c1 len=4" +:+ nl, ["ACGT" +:+ nl]); (">c3" +:+ nl, ["CCC" +:+ nl])]
        ≫= block_lines)
    ex_bin2contigs None =
  split_lines
    (filter (λ blk, mapped ex_bin2contigs (block_record blk))
       [(">c1 len=4" +:+ nl, ["ACGT" +:+ nl]); (">c3" +:+ nl, ["CCC" +:+ nl])]
     ≫= block_lines)
    ex_bin2contigs None.
Proof.
  apply (X11_unmapped_records_dropped ["# assembly" +:+ nl]
           [(">c1 len=4" +:+ nl, ["ACGT" +:+ nl]); (">c3" +:+ nl, ["CCC" +:+ nl])]
           ex_bin2contigs None).
  - repeat constructor.
  - repeat constructor; vm_compute; eauto.
Defined.

(** ** The whole run *)

Lemma well_marked_iff lines :
  well_marked lines = true ↔ ¬ Exists bare_marker lines.
Proof.
  unfold well_marked. split.
  - intros Hok Hex. by rewrite (parse_from_bare None [] lines Hex) in Hok.
  - intros Hno. destruct (parse_from None [] lines).2 eqn:Hp; [done |].
    exfalso. apply Hno. by eapply parse_from_marked.
Qed.

Lemma elem_of_bin_records m b rec recs :
  rec ∈ bin_records m b recs ↔ rec ∈ recs ∧ maps_to m b rec.1.
Proof.
  unfold bin_records. rewrite list_elem_of_filter, elem_of_owners. tauto.
Qed.

(** X12: loader and splitter together.  When both files exist, the mapping
    file holds a valid row, the bins of its rows name plain files and no
    marker line of the sequence file lacks its
    token, [main] ends with status zero, and for every bin the file of the
    bin holds, in the order of the sequence file, exactly the records whose
    identifier a row of the mapping file pairs with the bin; without such a
    record the file is as it was before the run. *)
Theorem X12_main_end_to_end a w asm tsv :
  paths w !! assembly a = Some asm → paths w !! map a = Some tsv →
  plain_rows tsv →
  ¬ no_rows tsv → ¬ Exists bare_marker (file_lines asm) →
  ∃ fs,
    main a w = (Exit0, {| paths := paths w; outdir := Some fs |})
    ∧ ∀ b,
        let rs := bin_records (load_bin_contig_map tsv) b
                    (records (file_lines asm)) in
        (∀ rec, rec ∈ rs ↔ rec ∈ records (file_lines asm) ∧ has_row tsv b rec.1)
        ∧ fs !! fasta_name b =
            match rs with
            | [] => outdir w ≫= (.!! fasta_name b)
            | _ => Some (render_all rs)
            end.
Proof.
  intros Ha Hm _ Hrows Hbare.
  assert (load_bin_contig_map tsv ≠ []) as Hne.
  { intros He. by apply load_nil_no_rows in He. }
  apply well_marked_iff in Hbare.
  exists (files (final_io (file_lines asm) (load_bin_contig_map tsv) (outdir w))).
  split.
  - by rewrite (main_runs a w asm tsv Ha Hm Hne), split_fasta_final, Hbare.
  - intros b. simpl. split.
    + intros rec. by rewrite elem_of_bin_records, load_maps_to_rows.
    + rewrite final_io_bin_file by apply load_NoDup.
      destruct (bin_records _ b _); [| done]. by destruct (outdir w).
Qed.

Lemma X12_main_end_to_end_witness :
  (∃ fs,
     main ex_args ex_world =
       (Exit0, {| paths := paths ex_world; outdir := Some fs |})
     ∧ ∀ b,
         let rs := bin_records (load_bin_contig_map ex_map) b
                     (records (file_lines ex_fasta)) in
         (∀ rec, rec ∈ rs ↔ rec ∈ records (file_lines ex_fasta)
                            ∧ has_row ex_map b rec.1)
         ∧ fs !! fasta_name b =
             match rs with
             | [] => outdir ex_world ≫= (.!! fasta_name b)
             | _ => Some (render_all rs)
             end)
  ∧ main ex_args ex_world =
      (Exit0,
       {| paths := paths ex_world;
          outdir :=
            Some {[ "A.fasta" := ">c1" +:+ nl +:+ "ACGT" +:+ nl +:+ ">c2" +:+ nl
                                 +:+ "GG" +:+ nl +:+ "TT" +:+ nl;
                    "B.fasta" := ">c2" +:+ nl +:+ "GG" +:+ nl +:+ "TT" +:+ nl ]} |})
  ∧ bin_records (load_bin_contig_map ex_map) "B" (records (file_lines ex_fasta))
    = [("c2", ["GG" +:+ nl; "TT" +:+ nl])].
Proof.
  split; [| split; by vm_compute].
  apply (X12_main_end_to_end ex_args ex_world ex_fasta ex_map).
  - by vm_compute.
  - by vm_compute.
  - exact ex_map_plain_rows.
  - intros Hno. apply load_nil_no_rows in Hno. by rewrite ex_map_loaded in Hno.
  - apply well_marked_iff. by vm_compute.
Defined.

(** X13: how [main] ends, for a mapping file whose bins name plain files.
    It ends with status zero exactly when both files
    exist, the mapping file holds a valid row and every marker line of the
    sequence file has a token; it ends on the uncaught [IndexError] exactly
    when both files exist, the mapping file holds a valid row and some marker
    line has none. *)
Theorem X13_success_iff a w :
  (∀ tsv, paths w !! map a = Some tsv → plain_rows tsv) →
  ((main a w).1 = Exit0 ↔
     ∃ asm tsv,
       paths w !! assembly a = Some asm ∧ paths w !! map a = Some tsv ∧
       ¬ no_rows tsv ∧ ¬ Exists bare_marker (file_lines asm))
  ∧ ((main a w).1 = Uncaught IndexError ↔
       ∃ asm tsv,
         paths w !! assembly a = Some asm ∧ paths w !! map a = Some tsv ∧
         ¬ no_rows tsv ∧ Exists bare_marker (file_lines asm)).
Proof.
  intros _.
  destruct (paths w !! assembly a) as [asm|] eqn:Ha;
    [destruct (paths w !! map a) as [tsv|] eqn:Hm;
      [destruct (decide (load_bin_contig_map tsv = [])) as [He|He] |] |].
  - assert (main a w = (SysExit NoMappings, w)) as ->.
    { unfold main. by rewrite Ha, Hm, He. }
    apply load_nil_no_rows in He. simpl.
    split; (split; [done |]); by intros (? & ? & [= <-] & [= <-] & Hn & _).
  - rewrite (main_runs a w asm tsv Ha Hm He), split_fasta_final.
    assert (¬ no_rows tsv) as Hrows.
    { intros Hn. by apply load_nil_no_rows in Hn. }
    destruct (well_marked (file_lines asm)) eqn:Hwm; simpl.
    + pose proof (proj1 (well_marked_iff _) Hwm) as Hno.
      split; split; try done.
      * intros _. by exists asm, tsv.
      * by intros (? & ? & [= <-] & _ & _ & Hex).
    + assert (Exists bare_marker (file_lines asm)) as Hex.
      { unfold well_marked in Hwm. by eapply parse_from_marked. }
      split; split; try done.
      * by intros (? & ? & [= <-] & _ & _ & Hno).
      * intros _. by exists asm, tsv.
  - assert (main a w = (SysExit (MappingNotFound (map a)), w)) as ->.
    { unfold main. by rewrite Ha, Hm. }
    simpl. split; (split; [done |]); by intros (? & ? & _ & [=] & _).
  - assert (main a w = (SysExit (AssemblyNotFound (assembly a)), w)) as ->.
    { unfold main. by rewrite Ha. }
    simpl. split; (split; [done |]); by intros (? & ? & [=] & _).
Qed.

Lemma X13_success_iff_witness :
  (((main ex_args ex_world).1 = Exit0 ↔
      ∃ asm tsv,
        paths ex_world !! assembly ex_args = Some asm ∧
        paths ex_world !! map ex_args = Some tsv ∧
        ¬ no_rows tsv ∧ ¬ Exists bare_marker (file_lines asm))
   ∧ ((main ex_args ex_world).1 = Uncaught IndexError ↔
        ∃ asm tsv,
          paths ex_world !! assembly ex_args = Some asm ∧
          paths ex_world !! map ex_args = Some tsv ∧
          ¬ no_rows tsv ∧ Exists bare_marker (file_lines asm)))
  ∧ (main ex_args ex_world).1 = Exit0
  ∧ (main ex_args (world_of ex_fasta_bare ex_map None)).1 = Uncaught IndexError
  ∧ (main ex_args (world_of ex_fasta ("bin contig" +:+ nl) None)).1
    = SysExit NoMappings.
Proof.
  split; [| repeat split; by vm_compute].
  apply (X13_success_iff ex_args ex_world).
  intros tsv Hm.
  assert (paths ex_world !! map ex_args = Some ex_map) as He by by vm_compute.
  rewrite He in Hm. injection Hm as <-. exact ex_map_plain_rows.
Defined.
